(** * Access to sanitation (World Bank indicator SH.STA.BASS.ZS):
      the reshaping and chart-building script [part1_script.py]

    The script fetches one indicator table, reshapes it with pandas
    ([preprocess_df]), derives the column "Country_Avg_line", reorders the
    columns and builds a plotly figure with one dropdown ([create_chart]).

    The embedding is shallow.  Python lists are [list], a Python [dict]
    (insertion ordered) is an association list, Python exceptions are the
    [Raise] branch of [result], and the two effects of [create_chart]
    (showing the figure and writing [visual.html]) are events appended to a
    trace.  A pandas [DataFrame] is a record of row labels, column labels
    and a row-major table of cells; a cell is [option Q], [None] being NaN
    (null).  The float64 values of the real table are taken as exact
    rationals: binary representation error is outside this model.  Text
    printed on standard output is not modelled; [main] starts from the
    fetched table, "Country" already its index. *)

From Stdlib Require Import List String Ascii Bool Arith ZArith QArith Lia.
From Stdlib Require Import Sorting.Sorted Sorting.Permutation Sorting.Mergesort.
From Stdlib Require Import Lqa.
Import ListNotations.

Local Close Scope Q_scope.
Local Open Scope nat_scope.
Local Open Scope string_scope.
Local Open Scope list_scope.

(* ================================================================= *)
(** ** Python built-ins used by the script *)

Module Py.

Inductive exn : Type :=
| ValueError   (* list.index: the value is not in the list *)
| KeyError     (* dict[k], df[labels]: a key or label is missing *)
| IndexError.  (* l[i]: the index is out of range *)

Inductive result (A : Type) : Type :=
| Ok (a : A)
| Raise (e : exn).
Arguments Ok {A} a.
Arguments Raise {A} e.

Definition bind {A B : Type} (m : result A) (k : A -> result B) : result B :=
  match m with
  | Ok a => k a
  | Raise e => Raise e
  end.

(** [for x in l: body] where the body may raise: the loop state is
    threaded from left to right and the first exception ends the loop. *)
Fixpoint for_each {A S : Type} (l : list A) (body : S -> A -> result S)
         (s : S) : result S :=
  match l with
  | [] => Ok s
  | x :: l' => bind (body s x) (for_each l' body)
  end.

(** [x in l] on a list of strings. *)
Definition contains (x : string) (l : list string) : bool :=
  existsb (String.eqb x) l.

(** [l.index(x)]: position of the first occurrence, [ValueError] when
    there is none. *)
Fixpoint index_from (x : string) (l : list string) (i : nat) : result nat :=
  match l with
  | [] => Raise ValueError
  | y :: l' => if String.eqb y x then Ok i else index_from x l' (S i)
  end.

Definition list_index (l : list string) (x : string) : result nat :=
  index_from x l 0.

(** [l[i]]. *)
Definition list_getitem {A : Type} (l : list A) (i : nat) : result A :=
  match nth_error l i with
  | Some a => Ok a
  | None => Raise IndexError
  end.

(** [enumerate(l)]. *)
Definition enumerate {A : Type} (l : list A) : list (nat * A) :=
  combine (seq 0 (List.length l)) l.

(** A [dict] with string keys, in insertion order. *)
Definition dict (V : Type) : Type := list (string * V).

Definition keys {V : Type} (d : dict V) : list string := map fst d.

Fixpoint dict_getitem {V : Type} (d : dict V) (k : string) : result V :=
  match d with
  | [] => Raise KeyError
  | (k', v) :: d' => if String.eqb k' k then Ok v else dict_getitem d' k
  end.

(** [sorted(l)] on strings: code-point order, which on UTF-8 text is the
    byte-wise lexicographic order [String.leb]. *)
Module StringOrder <: Orders.TotalLeBool.
Definition t := string.
Definition leb := String.leb.
Definition leb_total :
  forall a1 a2, leb a1 a2 = true \/ leb a2 a1 = true := String.leb_total.
End StringOrder.

Module StringSort := Sort StringOrder.

Definition sorted (l : list string) : list string := StringSort.sort l.

End Py.

Import Py.

Notation "x <- m ;; k" := (bind m (fun x => k))
  (at level 61, m at next level, right associativity).

(* ================================================================= *)
(** ** The part of pandas the script uses *)

Module Pandas.

(** A cell of the indicator table: a number, or NaN ([None]). *)
Definition cell : Type := option Q.

Definition notna (c : cell) : bool :=
  match c with
  | Some _ => true
  | None => false
  end.

(** Row labels, column labels, the two axis names and the cells, one list
    per row. *)
Record DataFrame : Type := mkDF {
  index : list string;
  index_name : option string;
  columns : list string;
  columns_name : option string;
  values : list (list cell)
}.

(** A frame is rectangular: one row of cells per row label, one cell per
    column label in every row. *)
Definition wf (df : DataFrame) : Prop :=
  List.length (values df) = List.length (index df) /\
  Forall (fun r => List.length r = List.length (columns df)) (values df).

Definition wfb (df : DataFrame) : bool :=
  Nat.eqb (List.length (values df)) (List.length (index df)) &&
  forallb (fun r => Nat.eqb (List.length r) (List.length (columns df)))
          (values df).

(** Column [j] of a table of cells. *)
Definition column (j : nat) (rows : list (list cell)) : list cell :=
  map (fun r => nth j r None) rows.

(** Boolean indexing: the entries of [l] whose mask entry is [True]. *)
Fixpoint compress {A : Type} (mask : list bool) (l : list A) : list A :=
  match mask, l with
  | b :: mask', x :: l' =>
      if b then x :: compress mask' l' else compress mask' l'
  | _, _ => []
  end.

(** [Index.is_unique]: no label occurs twice. *)
Fixpoint is_unique (labels : list string) : bool :=
  match labels with
  | [] => true
  | l :: rest => negb (contains l rest) && is_unique rest
  end.

(** Every position at which [labels] carries the label [l]. *)
Definition positions (labels : list string) (l : string) : list nat :=
  map fst (filter (fun p => String.eqb (snd p) l) (enumerate labels)).

(** The indexer of a list of labels: for each requested label all of its
    positions, in order; [KeyError] when a label is absent. *)
Definition get_indexer_strict (labels key : list string) : result (list nat) :=
  for_each key
    (fun acc l =>
       match positions labels l with
       | [] => Raise KeyError
       | ps => Ok (acc ++ ps)
       end)
    [].

Definition take_cols (ixs : list nat) (df : DataFrame) : DataFrame :=
  {| index := index df;
     index_name := index_name df;
     columns := map (fun j => nth j (columns df) EmptyString) ixs;
     columns_name := columns_name df;
     values := map (fun r => map (fun j => nth j r None) ixs) (values df) |}.

Definition take_rows (ixs : list nat) (df : DataFrame) : DataFrame :=
  {| index := map (fun i => nth i (index df) EmptyString) ixs;
     index_name := index_name df;
     columns := columns df;
     columns_name := columns_name df;
     values := map (fun i => nth i (values df) []) ixs |}.

(** [df[labels]] with a list of column labels. *)
Definition getitem_cols (df : DataFrame) (labels : list string)
  : result DataFrame :=
  ixs <- get_indexer_strict (columns df) labels ;;
  Ok (take_cols ixs df).

Inductive axis : Type := Axis0 | Axis1.
Inductive how : Type := HowAny | HowAll.

(** [df.dropna(axis=ax, how=h, subset=subset)].  The labels of [subset]
    live on the other axis; the mask keeps a row (column) when [any]
    ([how='all']) or [all] ([how='any']) of the inspected cells are not
    null. *)
Definition dropna (ax : axis) (h : how) (subset : option (list string))
           (df : DataFrame) : result DataFrame :=
  agg_obj <-
    match subset with
    | None => Ok df
    | Some labels =>
        match ax with
        | Axis0 =>
            ixs <- get_indexer_strict (columns df) labels ;;
            Ok (take_cols ixs df)
        | Axis1 =>
            ixs <- get_indexer_strict (index df) labels ;;
            Ok (take_rows ixs df)
        end
    end ;;
  let keep :=
    match h with
    | HowAny => forallb notna
    | HowAll => existsb notna
    end in
  match ax with
  | Axis0 =>
      let mask := map keep (values agg_obj) in
      Ok {| index := compress mask (index df);
            index_name := index_name df;
            columns := columns df;
            columns_name := columns_name df;
            values := compress mask (values df) |}
  | Axis1 =>
      let mask :=
        map (fun j => keep (column j (values agg_obj)))
            (seq 0 (List.length (columns agg_obj))) in
      Ok {| index := index df;
            index_name := index_name df;
            columns := compress mask (columns df);
            columns_name := columns_name df;
            values := map (compress mask) (values df) |}
  end.

(** [re.sub("YR", "", s)], what [Index.str.replace("YR", "", regex=True)]
    does to each label: the text is scanned from the left and every match
    of the two letters is deleted; the scan goes on after the match. *)
Fixpoint remove_YR (s : string) : string :=
  match s with
  | EmptyString => EmptyString
  | String c rest =>
      match rest with
      | String d rest' =>
          if (Ascii.eqb c "Y" && Ascii.eqb d "R")%bool
          then remove_YR rest'
          else String c (remove_YR rest)
      | EmptyString => String c EmptyString
      end
  end.

(** Round half to even, as [numpy.rint]. *)
Definition rint (x : Q) : Z :=
  let n := Qnum x in
  let d := Zpos (Qden x) in
  let fl := (n / d)%Z in
  match (2 * (n mod d) ?= d)%Z with
  | Lt => fl
  | Gt => (fl + 1)%Z
  | Eq => if Z.even fl then fl else (fl + 1)%Z
  end.

(** [numpy.round(x, decimals)]: scale, [rint], scale back. *)
Definition np_round (decimals : nat) (x : Q) : Q :=
  let scale := inject_Z (10 ^ Z.of_nat decimals) in
  (inject_Z (rint (x * scale)) / scale)%Q.

(** [df.round(decimals)]; NaN stays NaN. *)
Definition round (decimals : nat) (df : DataFrame) : DataFrame :=
  {| index := index df;
     index_name := index_name df;
     columns := columns df;
     columns_name := columns_name df;
     values := map (map (option_map (np_round decimals))) (values df) |}.

(** [df.T]. *)
Definition T (df : DataFrame) : DataFrame :=
  {| index := columns df;
     index_name := columns_name df;
     columns := index df;
     columns_name := index_name df;
     values := map (fun j => column j (values df))
                   (seq 0 (List.length (columns df))) |}.

(** The numbers among a list of cells. *)
Fixpoint dropna_cells (l : list cell) : list Q :=
  match l with
  | [] => []
  | Some q :: l' => q :: dropna_cells l'
  | None :: l' => dropna_cells l'
  end.

(** Mean with [skipna=True] (the default): the mean of the cells that are
    not null, NaN when there is none. *)
Definition nanmean (l : list cell) : cell :=
  match dropna_cells l with
  | [] => None
  | q :: qs =>
      Some (Qred (fold_left Qplus qs q /
                  inject_Z (Z.of_nat (List.length (q :: qs)))))
  end.

(** [df.mean(axis=1)]: one value per row (the Series keeps the row labels
    of [df]). *)
Definition mean_axis1 (df : DataFrame) : list cell :=
  map nanmean (values df).

(** [df[label] = vals], where [vals] carries the row labels of [df] (no
    realignment): an existing label is overwritten wherever it occurs, a
    new label is appended as the last column. *)
Definition setitem (df : DataFrame) (label : string) (vals : list cell)
  : result DataFrame :=
  if negb (Nat.eqb (List.length vals) (List.length (index df)))
  then Raise ValueError
  else if contains label (columns df) then
    Ok {| index := index df;
          index_name := index_name df;
          columns := columns df;
          columns_name := columns_name df;
          values :=
            map (fun rv =>
                   map (fun lc => if String.eqb (fst lc) label
                                  then snd rv else snd lc)
                       (combine (columns df) (fst rv)))
                (combine (values df) vals) |}
  else
    Ok {| index := index df;
          index_name := index_name df;
          columns := columns df ++ [label];
          columns_name := columns_name df;
          values := map (fun rv => fst rv ++ [snd rv])
                        (combine (values df) vals) |}.

End Pandas.

Import Pandas.

(* ================================================================= *)
(** ** The script *)

(** The value of a trace's [visible] attribute: [True], [False] or
    ['legendonly']. *)
Inductive visible : Type := VTrue | VFalse | VLegendOnly.

(** One option of the dropdown:
    [dict(label=..., method='restyle', args=['visible', vector])]. *)
Record button : Type := mkButton {
  label : string;
  method : string;
  args : string * list visible
}.

(** What the script keeps of a plotly figure: the row labels on the x
    axis, one trace per column with its [visible] attribute, and the
    buttons of the single dropdown. *)
Record Figure : Type := mkFigure {
  fig_x : list string;
  fig_traces : list (string * visible);
  fig_buttons : list button
}.

(** The effects of [create_chart]. *)
Inductive event : Type :=
| EvShow (fig : Figure)
| EvWriteHtml (path : string) (fig : Figure).

(** A computation that may raise and that appends events to the trace of
    the run. *)
Definition IO (A : Type) : Type := list event -> result A * list event.

Definition io_bind {A B : Type} (m : IO A) (k : A -> IO B) : IO B :=
  fun tr =>
    match m tr with
    | (Ok a, tr') => k a tr'
    | (Raise e, tr') => (Raise e, tr')
    end.

Definition io_lift {A : Type} (r : result A) : IO A := fun tr => (r, tr).

(** An effect that is carried out: the display and the file system are
    taken to accept the figure (a renderer or a disk that refuses it is
    outside this model), so what is proved of a run that returns is
    proved of the runs in which both effects took place. *)
Definition emit (e : event) : IO unit := fun tr => (Ok tt, tr ++ [e]).

Notation "x <~ m ;; k" := (io_bind m (fun x => k))
  (at level 61, m at next level, right associativity).

Definition Country_Avg_line : string := "Country_Avg_line".

(** Lines 27-43: the names of the categories and, for each, its visibility
    vector over the columns [cols] of the table. *)
Definition category_visibility (filter_options : dict (list string))
           (cols : list string)
  : result (list string * list (list visible)) :=
  for_each (keys filter_options)
    (fun acc category_name =>
       let '(category_list, category_visibility_list) := acc in
       visibility_list <-
         for_each cols
           (fun visibility_list col =>
              options <- dict_getitem filter_options category_name ;;
              if contains col options then
                if String.eqb col Country_Avg_line then
                  Ok (visibility_list ++ [VTrue])
                else if String.eqb category_name "Countries" then
                  Ok (visibility_list ++ [VLegendOnly])
                else
                  Ok (visibility_list ++ [VTrue])
              else
                Ok (visibility_list ++ [VFalse]))
           [] ;;
       Ok (category_list ++ [category_name],
           category_visibility_list ++ [visibility_list]))
    ([], []).

(** Lines 45-54: one button per category, then the button "All" put in
    front of them. *)
Definition make_buttons (category_list : list string)
           (category_visibility_list : list (list visible))
           (cols : list string) : result (list button) :=
  buttons <-
    for_each (enumerate category_list)
      (fun buttons ig =>
         let '(i, g) := ig in
         v <- list_getitem category_visibility_list i ;;
         Ok (buttons ++ [mkButton g "restyle" ("visible", v)]))
      [] ;;
  Ok ([mkButton "All" "restyle"
         ("visible",
          map (fun _ => VLegendOnly) (seq 0 (List.length cols)))]
      ++ buttons).

(** [px.line(df, x=df.index, y=df.columns, ...)] (line 18).  Both [x] and
    [y] are lists of labels.  Plotly Express reads such a list as the
    list of the columns to draw when every label in it is a column label
    of [df], which always holds of [y]; when it holds of [x] too (a table
    without rows, or one whose row labels are all column labels) the
    call raises [ValueError].  The call raises as well when two columns
    carry the same label.  Otherwise the figure has the row labels on its
    x axis and one trace per column, named after it. *)
Definition px_line (df : DataFrame) : result Figure :=
  if forallb (fun l => contains l (columns df)) (index df) then
    Raise ValueError
  else if negb (is_unique (columns df)) then
    Raise ValueError
  else
    Ok {| fig_x := index df;
          fig_traces := map (fun c => (c, VTrue)) (columns df);
          fig_buttons := [] |}.

(** [fig.update_traces(visible=v)]. *)
Definition update_traces (v : visible) (fig : Figure) : Figure :=
  {| fig_x := fig_x fig;
     fig_traces := map (fun t => (fst t, v)) (fig_traces fig);
     fig_buttons := fig_buttons fig |}.

(** [fig.update_layout(updatemenus=[dict(type="dropdown", buttons=buttons)])]. *)
Definition update_layout (buttons : list button) (fig : Figure) : Figure :=
  {| fig_x := fig_x fig;
     fig_traces := fig_traces fig;
     fig_buttons := buttons |}.

(** Lines 18-65: the figure of [px.line], every trace set to
    ['legendonly'], with its dropdown. *)
Definition build_figure (filter_options : dict (list string))
           (df : DataFrame) : result Figure :=
  fig <- px_line df ;;
  let fig := update_traces VLegendOnly fig in
  cv <- category_visibility filter_options (columns df) ;;
  buttons <- make_buttons (fst cv) (snd cv) (columns df) ;;
  Ok (update_layout buttons fig).

Definition create_chart (filter_options : dict (list string))
           (df : DataFrame) : IO unit :=
  fig <~ io_lift (build_figure filter_options df) ;;
  _ <~ emit (EvShow fig) ;;
  emit (EvWriteHtml "visual.html" fig).

(** Lines 104-131; the two [inplace] calls rebind [df]. *)
Definition preprocess_df (df : DataFrame) : result DataFrame :=
  df <- dropna Axis1 HowAll None df ;;
  let cols_to_check := columns df in
  df <- dropna Axis0 HowAll (Some cols_to_check) df ;;
  let df :=
    {| index := index df;
       index_name := index_name df;
       columns := map remove_YR (columns df);
       columns_name := columns_name df;
       values := values df |} in
  let df := round 1 df in
  let df := T df in
  let df :=
    {| index := index df;
       index_name := Some "Year";
       columns := columns df;
       columns_name := columns_name df;
       values := values df |} in
  let df :=
    {| index := index df;
       index_name := index_name df;
       columns := columns df;
       columns_name := None;
       values := values df |} in
  Ok df.

Definition income_grps : list string :=
  ["Low income"; "Lower middle income"; "Upper middle income"; "High income"].

Definition region_grps : list string :=
  ["East Asia & Pacific"; "Europe & Central Asia";
   "Latin America & Caribbean"; "Middle East & North Africa";
   "North America"; "South Asia"; "Sub-Saharan Africa"].

(** Lines 150-151 on the reshaped table. *)
Definition country_columns (sanit_df : DataFrame) : result (list string) :=
  world_index <- list_index (columns sanit_df) "World" ;;
  Ok (sorted (firstn world_index (columns sanit_df))).

(** Line 152. *)
Definition add_country_avg (sanit_df : DataFrame) (countries : list string)
  : result DataFrame :=
  sel <- getitem_cols sanit_df countries ;;
  setitem sanit_df Country_Avg_line (mean_axis1 sel).

(** Lines 147-163 of [main]: the table and the filter options handed to
    [create_chart]. *)
Definition chart_inputs (sanit_df : DataFrame)
  : result (dict (list string) * DataFrame) :=
  sanit_df <- preprocess_df sanit_df ;;
  countries <- country_columns sanit_df ;;
  sanit_df <- add_country_avg sanit_df countries ;;
  let countries := [Country_Avg_line] ++ countries in
  sanit_df <- getitem_cols sanit_df (countries ++ region_grps ++ income_grps) ;;
  let filter_options :=
    [("Countries", countries); ("Income Groups", income_grps);
     ("Regions", region_grps)] in
  Ok (filter_options, sanit_df).

(** Lines 81-91.  What [inspect_dataframe] prints is not modelled; of its
    three summaries [df.describe()] raises [ValueError] on a table
    without columns. *)
Definition inspect_dataframe (df : DataFrame) : result unit :=
  match columns df with
  | [] => Raise ValueError
  | _ :: _ => Ok tt
  end.

(** [main], from the fetched table once "Country" is its index. *)
Definition main (sanit_df : DataFrame) : IO unit :=
  _ <~ io_lift (inspect_dataframe sanit_df) ;;
  fd <~ io_lift (chart_inputs sanit_df) ;;
  create_chart (fst fd) (snd fd).

(* ================================================================= *)
(** ** The specification's wording, for comparison with the code *)

Module Spec.

(** "entirely null". *)
Definition all_null (l : list cell) : bool :=
  forallb (fun c => negb (notna c)) l.

(** The positions of the columns that are not entirely null. *)
Definition kept_columns (df : DataFrame) : list nat :=
  filter (fun j => negb (all_null (column j (values df))))
         (seq 0 (List.length (columns df))).

(** "drop columns that are entirely null". *)
Definition drop_null_columns (df : DataFrame) : DataFrame :=
  take_cols (kept_columns df) df.

(** The rows that are not entirely null. *)
Definition kept_rows (df : DataFrame) : list (list cell) :=
  filter (fun r => negb (all_null r)) (values df).

(** "drop rows that are entirely null across the remaining columns". *)
Definition drop_null_rows (df : DataFrame) : DataFrame :=
  let kept :=
    filter (fun lr => negb (all_null (snd lr)))
           (combine (index df) (values df)) in
  {| index := map fst kept;
     index_name := index_name df;
     columns := columns df;
     columns_name := columns_name df;
     values := map snd kept |}.

(** "strip a fixed prefix token from column labels". *)
Definition strip_prefix (p s : string) : string :=
  if String.prefix p s
  then String.substring (String.length p)
                        (String.length s - String.length p) s
  else s.

Definition rename_columns (f : string -> string) (df : DataFrame)
  : DataFrame :=
  {| index := index df;
     index_name := index_name df;
     columns := map f (columns df);
     columns_name := columns_name df;
     values := values df |}.

(** "round numeric values to one decimal place". *)
Definition round_one_decimal (df : DataFrame) : DataFrame :=
  {| index := index df;
     index_name := index_name df;
     columns := columns df;
     columns_name := columns_name df;
     values := map (map (option_map (np_round 1))) (values df) |}.

(** Rows to columns: the first row becomes the first cell of every new
    row. *)
Fixpoint transpose (ncols : nat) (rows : list (list cell))
  : list (list cell) :=
  match rows with
  | [] => repeat [] ncols
  | r :: rows' =>
      map (fun cr => fst cr :: snd cr) (combine r (transpose ncols rows'))
  end.

(** "transpose so years become the row index". *)
Definition years_as_rows (df : DataFrame) : DataFrame :=
  {| index := columns df;
     index_name := Some "Year";
     columns := index df;
     columns_name := None;
     values := transpose (List.length (columns df)) (values df) |}.

(** The five steps in the stated order, for a given treatment of the
    column labels. *)
Definition reshape (rename : string -> string) (df : DataFrame)
  : DataFrame :=
  years_as_rows
    (round_one_decimal
       (rename_columns rename
          (drop_null_rows (drop_null_columns df)))).

(** Whether the two letters "YR" occur somewhere in a label. *)
Fixpoint occurs_YR (s : string) : bool :=
  match s with
  | EmptyString => false
  | String c rest =>
      match rest with
      | String d _ =>
          (Ascii.eqb c "Y" && Ascii.eqb d "R") || occurs_YR rest
      | EmptyString => false
      end
  end.

(** A label in which "YR" occurs at most once, as its prefix. *)
Definition YR_only_prefix (s : string) : Prop :=
  occurs_YR (strip_prefix "YR" s) = false.

(** The visibility of column [col] in the vector of a category with the
    option list [options], as sections 4.2 and 4.3 word it. *)
Definition visibility_of (category_name : string) (options : list string)
           (col : string) : visible :=
  match in_dec string_dec col options with
  | left _ =>
      if string_dec col Country_Avg_line then VTrue
      else if string_dec category_name "Countries" then VLegendOnly
      else VTrue
  | right _ => VFalse
  end.

(** The same, case by case, as a relation between a column and its entry:
    in the category "Countries" a member other than the aggregate column
    is collapsed in the legend, the aggregate column when it is a member
    is shown, a column outside the option list is hidden; in any other
    category members are shown and the others hidden. *)
Definition category_rule (category_name : string) (options : list string)
           (col : string) (v : visible) : Prop :=
  (category_name = "Countries" ->
   (In col options -> col <> Country_Avg_line -> v = VLegendOnly) /\
   (In col options -> col = Country_Avg_line -> v = VTrue) /\
   (~ In col options -> v = VFalse)) /\
  (category_name <> "Countries" ->
   (In col options -> v = VTrue) /\
   (~ In col options -> v = VFalse)).

(** The option list of a category ([filter_options[category_name]]). *)
Definition options_of (filter_options : dict (list string))
           (category_name : string) : list string :=
  match dict_getitem filter_options category_name with
  | Ok options => options
  | Raise _ => []
  end.

(** The button of a category. *)
Definition category_button (filter_options : dict (list string))
           (cols : list string) (category_name : string) : button :=
  mkButton category_name "restyle"
    ("visible",
     map (visibility_of category_name
            (options_of filter_options category_name)) cols).

(** The button "All". *)
Definition all_button (cols : list string) : button :=
  mkButton "All" "restyle" ("visible", repeat VLegendOnly (List.length cols)).

(** The figure of a table: every trace collapsed in the legend, the
    button "All" first, then one button per category. *)
Definition chart_figure (filter_options : dict (list string))
           (df : DataFrame) : Figure :=
  {| fig_x := index df;
     fig_traces := map (fun c => (c, VLegendOnly)) (columns df);
     fig_buttons :=
       all_button (columns df)
       :: map (category_button filter_options (columns df))
              (keys filter_options) |}.

(** The cell of the row [r] in the column labelled [l] of a table with
    the column labels [cols]; NaN when there is no such column. *)
Definition cell_at (cols : list string) (r : list cell) (l : string) : cell :=
  match list_index cols l with
  | Ok j => nth j r None
  | Raise _ => None
  end.

(** The row-wise mean over the columns labelled [countries]: for each row
    the mean of its cells in those columns. *)
Definition country_means (df : DataFrame) (countries : list string)
  : list cell :=
  map (fun r => nanmean (map (cell_at (columns df) r) countries))
      (values df).

(** The labels that stand strictly before the first [x]. *)
Definition labels_before (x : string) (cols : list string) : list string :=
  match list_index cols x with
  | Ok w => firstn w cols
  | Raise _ => []
  end.

(** Whether the labels of a list are pairwise distinct. *)
Fixpoint distinct (l : list string) : bool :=
  match l with
  | [] => true
  | x :: l' => negb (contains x l') && distinct l'
  end.

(** The categories, among those of [filter_options], whose option list
    holds the column [col]. *)
Definition categories_of (filter_options : dict (list string))
           (col : string) : list string :=
  map fst (filter (fun kv => contains col (snd kv)) filter_options).

(** The numbers among a list of cells, in order. *)
Definition numbers (l : list cell) : list Q :=
  flat_map (fun c => match c with Some q => [q] | None => [] end) l.

(** A cell that, when it is not null, is a percentage. *)
Definition percent (c : cell) : Prop :=
  match c with
  | None => True
  | Some q => (0 <= q)%Q /\ (q <= 100)%Q
  end.

(** Every cell of a table satisfies [P]. *)
Definition all_cells (P : cell -> Prop) (df : DataFrame) : Prop :=
  Forall (Forall P) (values df).

(** The column labels of the chart for a given country list (line 160)
    and the filter options (line 163). *)
Definition chart_labels (countries : list string) : list string :=
  ([Country_Avg_line] ++ countries) ++ region_grps ++ income_grps.

Definition chart_options (countries : list string) : dict (list string) :=
  [("Countries", [Country_Avg_line] ++ countries);
   ("Income Groups", income_grps);
   ("Regions", region_grps)].

(** A year label as the data source writes it: "YR" and then a text in
    which "YR" does not occur. *)
Definition year_label (l : string) : Prop :=
  exists r, l = String "Y" (String "R" r) /\ occurs_YR r = false.

End Spec.

(* ================================================================= *)
(** ** Sample tables *)

(** A raw indicator table: countries, a row without data, "World", an
    aggregate outside the eleven groups, and the groups; the year 2001
    has no data. *)
Definition sample_raw : DataFrame :=
  {| index := ["Zimbabwe"; "Aruba"; "Nowhere"; "Brazil"; "World";
               "Arab World"] ++ region_grps ++ income_grps;
     index_name := Some "Country";
     columns := ["YR2000"; "YR2001"; "YR2002"];
     columns_name := None;
     values :=
       [ [Some 45.25%Q; None; Some 35.75%Q];
         [Some 97.5%Q; None; None];
         [None; None; None];
         [Some 72.349%Q; None; Some 88.05%Q];
         [Some 55.5%Q; None; Some 70%Q];
         [Some 80%Q; None; Some 90.91%Q] ]
       ++ map (fun _ => [Some 50.05%Q; None; Some 60.15%Q])
              (region_grps ++ income_grps) |}.

(** A raw table in which a region stands before "World". *)
Definition sample_region_first : DataFrame :=
  {| index := ["North America"; "World"; "East Asia & Pacific";
               "Europe & Central Asia"; "Latin America & Caribbean";
               "Middle East & North Africa"; "South Asia";
               "Sub-Saharan Africa"] ++ income_grps;
     index_name := Some "Country";
     columns := ["YR2000"];
     columns_name := None;
     values := map (fun _ => [Some 50%Q]) (seq 0 12) |}.

(** The reshaped table of the example of section 8. *)
Definition sample_A_B : DataFrame :=
  {| index := ["2000"; "2001"];
     index_name := Some "Year";
     columns := ["B"; "A"; "World"; "Region1"];
     columns_name := None;
     values := [ [Some 20%Q; Some 10%Q; Some 90%Q; Some 80%Q];
                 [None; Some 1%Q; Some 5%Q; Some 7%Q] ] |}.

(** A raw table with a label in which "YR" is not a prefix. *)
Definition sample_label : DataFrame :=
  {| index := ["World"];
     index_name := Some "Country";
     columns := ["MYR2000"];
     columns_name := None;
     values := [ [Some 1%Q] ] |}.

(** A raw table without a row "World". *)
Definition sample_no_world : DataFrame :=
  {| index := ["Aruba"; "Brazil"];
     index_name := Some "Country";
     columns := ["YR2000"];
     columns_name := None;
     values := [ [Some 97.5%Q]; [Some 72.3%Q] ] |}.

(** A raw table with "World" but without the groups. *)
Definition sample_no_groups : DataFrame :=
  {| index := ["Aruba"; "World"];
     index_name := Some "Country";
     columns := ["YR2000"];
     columns_name := None;
     values := [ [Some 97.5%Q]; [Some 72.3%Q] ] |}.

(** A raw table in which every row and every column has data. *)
Definition sample_clean : DataFrame :=
  {| index := ["Aruba"; "Brazil"; "World"];
     index_name := Some "Country";
     columns := ["YR2000"; "YR2001"];
     columns_name := None;
     values := [ [Some 97.54%Q; None];
                 [None; Some 88.25%Q];
                 [Some 55.5%Q; Some 56.06%Q] ] |}.

(** A raw table whose row "World" has no data. *)
Definition sample_world_null : DataFrame :=
  {| index := ["Aruba"; "World"];
     index_name := Some "Country";
     columns := ["YR2000"; "YR2001"];
     columns_name := None;
     values := [ [Some 97.5%Q; Some 97.6%Q]; [None; None] ] |}.

(** A small chart table with its options, and the trace of
    [create_chart] on them. *)
Definition sample_chart : DataFrame :=
  {| index := ["2000"; "2001"];
     index_name := Some "Year";
     columns := [Country_Avg_line; "Aruba"; "East Asia & Pacific";
                 "Low income"];
     columns_name := None;
     values := [ [Some 97.5%Q; Some 97.5%Q; Some 50%Q; Some 60%Q];
                 [None; None; Some 51%Q; Some 61%Q] ] |}.

Definition sample_chart_options : dict (list string) :=
  [("Countries", [Country_Avg_line; "Aruba"]);
   ("Income Groups", income_grps);
   ("Regions", region_grps)].

Definition sample_chart_trace : list event :=
  Eval vm_compute in snd (create_chart sample_chart_options sample_chart []).

(** The trace of [main] on [sample_raw]. *)
Definition sample_main_trace : list event :=
  Eval vm_compute in snd (main sample_raw []).

(** A reshaped table in which the label of the one country column comes
    again after "World". *)
Definition sample_repeated : DataFrame :=
  {| index := ["2000"];
     index_name := Some "Year";
     columns := ["Aruba"; "World"; "Aruba"];
     columns_name := None;
     values := [ [Some 10%Q; Some 50%Q; Some 30%Q] ] |}.

(** A fetch that returned nothing. *)
Definition sample_empty : DataFrame :=
  {| index := [];
     index_name := Some "Country";
     columns := [];
     columns_name := None;
     values := [] |}.

(* ================================================================= *)
(** ** Loops and look-ups *)

Lemma for_each_fold {A S : Type} (f : S -> A -> S) (l : list A)
      (body : S -> A -> result S) :
  (forall s x, In x l -> body s x = Ok (f s x)) ->
  forall s, for_each l body s = Ok (fold_left f l s).
Proof.
  induction l as [|x l IH]; intros Hbody s; simpl.
  - reflexivity.
  - rewrite Hbody by (left; reflexivity). simpl.
    apply IH. intros s' y Hy. apply Hbody. right; exact Hy.
Qed.

Lemma fold_left_append {A B : Type} (g : A -> B) (l : list A) (acc : list B) :
  fold_left (fun acc x => acc ++ [g x]) l acc = acc ++ map g l.
Proof.
  revert acc. induction l as [|x l IH]; intros acc; simpl.
  - now rewrite app_nil_r.
  - rewrite IH, <- app_assoc. reflexivity.
Qed.

Lemma contains_In (x : string) (l : list string) :
  contains x l = true <-> In x l.
Proof.
  unfold contains. rewrite existsb_exists. split.
  - intros [y [Hy He]]. apply String.eqb_eq in He. now subst.
  - intros H. exists x. split; [exact H | apply String.eqb_refl].
Qed.

Lemma contains_not_In (x : string) (l : list string) :
  contains x l = false <-> ~ In x l.
Proof.
  rewrite <- contains_In. destruct (contains x l); split; congruence.
Qed.

Lemma dict_getitem_keys {V : Type} (d : dict V) (k : string) :
  In k (keys d) -> exists v, dict_getitem d k = Ok v.
Proof.
  induction d as [|[k' v] d IH]; simpl; intros H.
  - contradiction.
  - destruct (String.eqb k' k) eqn:E.
    + now exists v.
    + destruct H as [H | H].
      * subst. rewrite String.eqb_refl in E. discriminate.
      * now apply IH.
Qed.

Lemma options_of_keys (fo : dict (list string)) (k : string) :
  In k (keys fo) -> dict_getitem fo k = Ok (Spec.options_of fo k).
Proof.
  intros H. destruct (dict_getitem_keys fo k H) as [v Hv].
  unfold Spec.options_of. now rewrite Hv.
Qed.

(* ================================================================= *)
(** ** The visibility vectors and the dropdown *)

(** One step of the loop over the columns appends the entry the
    specification names. *)
Lemma visibility_step (fo : dict (list string)) (k : string)
      (opts : list string) (acc : list visible) (col : string) :
  dict_getitem fo k = Ok opts ->
  (options <- dict_getitem fo k ;;
   if contains col options then
     if String.eqb col Country_Avg_line then Ok (acc ++ [VTrue])
     else if String.eqb k "Countries" then Ok (acc ++ [VLegendOnly])
     else Ok (acc ++ [VTrue])
   else Ok (acc ++ [VFalse]))
  = Ok (acc ++ [Spec.visibility_of k opts col]).
Proof.
  intros ->. simpl. unfold Spec.visibility_of.
  destruct (in_dec string_dec col opts) as [Hin | Hout].
  - apply contains_In in Hin. rewrite Hin.
    destruct (string_dec col Country_Avg_line) as [-> | Hne].
    + now rewrite String.eqb_refl.
    + apply String.eqb_neq in Hne. rewrite Hne.
      destruct (string_dec k "Countries") as [-> | Hk].
      * now rewrite String.eqb_refl.
      * apply String.eqb_neq in Hk. now rewrite Hk.
  - apply contains_not_In in Hout. now rewrite Hout.
Qed.

Lemma category_visibility_eq (fo : dict (list string)) (cols : list string) :
  category_visibility fo cols =
  Ok (keys fo,
      map (fun k => map (Spec.visibility_of k (Spec.options_of fo k)) cols)
          (keys fo)).
Proof.
  unfold category_visibility.
  set (h := fun k => map (Spec.visibility_of k (Spec.options_of fo k)) cols).
  rewrite (for_each_fold
             (fun acc k => (fst acc ++ [k], snd acc ++ [h k]))).
  - f_equal.
    assert (G : forall l a b,
               fold_left (fun acc k => (fst acc ++ [k], snd acc ++ [h k]))
                         l (a, b)
               = (a ++ l, b ++ map h l)).
    { induction l as [|k l IH]; intros a b; simpl.
      - now rewrite !app_nil_r.
      - rewrite IH, <- !app_assoc. reflexivity. }
    apply G.
  - intros [names vecs] k Hk. simpl.
    rewrite (for_each_fold
               (fun acc col =>
                  acc ++ [Spec.visibility_of k (Spec.options_of fo k) col])).
    + simpl. rewrite fold_left_append. reflexivity.
    + intros acc col _. apply visibility_step. now apply options_of_keys.
Qed.

Lemma legendonly_repeat (n k : nat) :
  map (fun _ : nat => VLegendOnly) (seq k n) = repeat VLegendOnly n.
Proof.
  revert k. induction n as [|n IH]; intros k; simpl.
  - reflexivity.
  - now rewrite IH.
Qed.

Lemma enumerate_lookup {A B C : Type} (F : A -> B -> C) (d : B)
      (names : list A) :
  forall (pre vecs : list B),
    List.length names = List.length vecs ->
    map (fun ig => F (snd ig) (nth (fst ig) (pre ++ vecs) d))
        (combine (seq (List.length pre) (List.length names)) names)
    = map (fun gv => F (fst gv) (snd gv)) (combine names vecs).
Proof.
  induction names as [|g names IH]; intros pre vecs Hlen.
  - reflexivity.
  - destruct vecs as [|v vecs]; [discriminate|].
    simpl. f_equal.
    + now rewrite nth_middle.
    + specialize (IH (pre ++ [v]) vecs).
      rewrite <- app_assoc, length_app, Nat.add_1_r in IH.
      apply IH. simpl in Hlen. now injection Hlen.
Qed.

Lemma in_enumerate {A : Type} (l : list A) (i : nat) (x : A) :
  In (i, x) (enumerate l) -> i < List.length l.
Proof.
  unfold enumerate. intros H. apply in_combine_l in H.
  apply in_seq in H. lia.
Qed.

Lemma list_getitem_nth {A : Type} (l : list A) (i : nat) (d : A) :
  i < List.length l -> list_getitem l i = Ok (nth i l d).
Proof.
  intros H. unfold list_getitem.
  destruct (nth_error l i) eqn:E.
  - now rewrite (nth_error_nth _ _ d E).
  - apply nth_error_None in E. lia.
Qed.

Lemma make_buttons_eq (names : list string) (vecs : list (list visible))
      (cols : list string) :
  List.length names = List.length vecs ->
  make_buttons names vecs cols =
  Ok (Spec.all_button cols
      :: map (fun gv => mkButton (fst gv) "restyle" ("visible", snd gv))
             (combine names vecs)).
Proof.
  intros Hlen. unfold make_buttons.
  rewrite (for_each_fold
             (fun buttons ig =>
                buttons ++ [mkButton (snd ig) "restyle"
                              ("visible", nth (fst ig) vecs [])])).
  - simpl. rewrite fold_left_append. simpl.
    unfold Spec.all_button. rewrite legendonly_repeat. do 2 f_equal.
    unfold enumerate.
    apply (enumerate_lookup
             (fun g v => mkButton g "restyle" ("visible", v)) [] names
             [] vecs Hlen).
  - intros buttons [i g] Hin. apply in_enumerate in Hin.
    rewrite (list_getitem_nth vecs i []) by lia. reflexivity.
Qed.

Lemma combine_map_r {A B : Type} (h : A -> B) (l : list A) :
  combine l (map h l) = map (fun x => (x, h x)) l.
Proof.
  induction l as [|x l IH]; simpl; [reflexivity | now rewrite IH].
Qed.

Lemma is_unique_NoDup (l : list string) : is_unique l = true <-> NoDup l.
Proof.
  induction l as [|x l IH]; simpl.
  - split; [constructor | reflexivity].
  - rewrite andb_true_iff, negb_true_iff, contains_not_In, IH.
    split.
    + intros [H1 H2]. now constructor.
    + intros H. inversion H. now split.
Qed.

Lemma forallb_false_exists {A : Type} (f : A -> bool) (l : list A) :
  forallb f l = false -> exists x, In x l /\ f x = false.
Proof.
  induction l as [|x l IH]; simpl; [discriminate|].
  destruct (f x) eqn:E; simpl.
  - intros H. destruct (IH H) as [y [Hy Hf]]. exists y. split; auto.
  - intros _. exists x. split; auto.
Qed.

(** When [px.line] returns, the column labels are distinct and some row
    label is not a column label. *)
Lemma px_line_Ok (df : DataFrame) (fig : Figure) :
  px_line df = Ok fig ->
  fig = {| fig_x := index df;
           fig_traces := map (fun c => (c, VTrue)) (columns df);
           fig_buttons := [] |} /\
  NoDup (columns df) /\
  exists l, In l (index df) /\ ~ In l (columns df).
Proof.
  unfold px_line.
  destruct (forallb (fun l => contains l (columns df)) (index df)) eqn:Ex;
    [discriminate|].
  destruct (is_unique (columns df)) eqn:Eu; cbn [negb]; [|discriminate].
  intros H. injection H as <-. split; [reflexivity|].
  split; [now apply is_unique_NoDup|].
  apply forallb_false_exists in Ex. destruct Ex as [l [Hl Hc]].
  exists l. split; [exact Hl | now apply contains_not_In].
Qed.

(** Past [px.line], lines 18-65 build the figure that the specification
    describes. *)
Lemma build_figure_eq (fo : dict (list string)) (df : DataFrame) :
  build_figure fo df
  = (_ <- px_line df ;; Ok (Spec.chart_figure fo df)).
Proof.
  unfold build_figure. destruct (px_line df) as [fig|e] eqn:E;
    [|reflexivity].
  apply px_line_Ok in E. destruct E as [-> _]. cbn [bind].
  rewrite category_visibility_eq. cbn [bind fst snd].
  rewrite make_buttons_eq by now rewrite length_map.
  cbn [bind]. unfold update_layout, update_traces, Spec.chart_figure.
  cbn [fig_x fig_traces fig_buttons]. f_equal. f_equal.
  - rewrite map_map. reflexivity.
  - f_equal. rewrite combine_map_r, map_map. reflexivity.
Qed.

(** A run of [create_chart] that returns has built the figure, shown it
    and then written it to [visual.html]. *)
Lemma create_chart_Ok (fo : dict (list string)) (df : DataFrame)
      (tr tr' : list event) :
  create_chart fo df tr = (Ok tt, tr') ->
  tr' = tr ++ [EvShow (Spec.chart_figure fo df);
               EvWriteHtml "visual.html" (Spec.chart_figure fo df)] /\
  NoDup (columns df) /\
  exists l, In l (index df) /\ ~ In l (columns df).
Proof.
  unfold create_chart, io_bind, io_lift, emit.
  rewrite build_figure_eq.
  destruct (px_line df) as [fig|e] eqn:E; cbn [bind]; [|discriminate].
  intros H. injection H as <-. apply px_line_Ok in E.
  destruct E as [_ [Hnd Hx]].
  split; [now rewrite <- app_assoc|]. now split.
Qed.

Lemma visibility_of_rule (k : string) (opts : list string) (col : string) :
  Spec.category_rule k opts col (Spec.visibility_of k opts col).
Proof.
  unfold Spec.category_rule, Spec.visibility_of.
  destruct (in_dec string_dec col opts) as [Hin | Hout];
    destruct (string_dec col Country_Avg_line) as [Hc | Hc];
    destruct (string_dec k "Countries") as [Hk | Hk];
    repeat split; intros; try reflexivity; try contradiction; congruence.
Qed.

Lemma Forall2_map_same {A B : Type} (P : A -> B -> Prop) (f : A -> B)
      (l : list A) :
  (forall x, In x l -> P x (f x)) -> Forall2 P l (map f l).
Proof.
  induction l as [|x l IH]; intros H; simpl; constructor.
  - apply H. now left.
  - apply IH. intros y Hy. apply H. now right.
Qed.

Lemma sample_chart_runs :
  create_chart sample_chart_options sample_chart []
  = (Ok tt, sample_chart_trace).
Proof. vm_compute. reflexivity. Qed.

(** C1, as amended.  In a run of [create_chart] that returns, the figure
    that was shown and written has, after "All", one button per category
    of the mapping, in its order; in the vector of a category the entry
    of a column labelled "Country_Avg_line" is the shown state ([True])
    when that label is a member of the category's option list, and the
    hidden state ([False]) when it is not: the aggregate column is shown
    in the categories that list it, not in every category. *)
Theorem aggregate_column_shown_where_listed :
  forall (fo : dict (list string)) (df : DataFrame) (tr tr' : list event),
  create_chart fo df tr = (Ok tt, tr') ->
  exists fig,
    tr' = tr ++ [EvShow fig; EvWriteHtml "visual.html" fig] /\
    Forall2
      (fun category_name b =>
         label b = category_name /\
         exists options,
           dict_getitem fo category_name = Ok options /\
           Forall2
             (fun col v =>
                col = Country_Avg_line ->
                (In Country_Avg_line options -> v = VTrue) /\
                (~ In Country_Avg_line options -> v = VFalse))
             (columns df) (snd (args b)))
      (map fst fo) (tl (fig_buttons fig)).
Proof.
  intros fo df tr tr' Hrun. exists (Spec.chart_figure fo df).
  split; [now apply create_chart_Ok in Hrun|].
  simpl. apply Forall2_map_same. intros k Hk. split; [reflexivity|].
  exists (Spec.options_of fo k). split; [now apply options_of_keys|].
  simpl. apply Forall2_map_same. intros col _ Hcol.
  destruct (visibility_of_rule k (Spec.options_of fo k) col) as [Hc Hn].
  subst col.
  destruct (string_dec k "Countries") as [Hk' | Hk'].
  - destruct (Hc Hk') as (_ & H1 & H2). split; auto.
  - destruct (Hn Hk') as (H1 & H2). split; auto.
Qed.

Lemma aggregate_column_shown_where_listed_witness :
  create_chart sample_chart_options sample_chart []
  = (Ok tt, sample_chart_trace) /\
  exists fig,
    sample_chart_trace
    = [] ++ [EvShow fig; EvWriteHtml "visual.html" fig] /\
    Forall2
      (fun category_name b =>
         label b = category_name /\
         exists options,
           dict_getitem sample_chart_options category_name = Ok options /\
           Forall2
             (fun col v =>
                col = Country_Avg_line ->
                (In Country_Avg_line options -> v = VTrue) /\
                (~ In Country_Avg_line options -> v = VFalse))
             (columns sample_chart) (snd (args b)))
      (map fst sample_chart_options) (tl (fig_buttons fig)).
Proof.
  split; [exact sample_chart_runs|].
  exact (aggregate_column_shown_where_listed
           sample_chart_options sample_chart [] sample_chart_trace
           sample_chart_runs).
Defined.

(** C1, as stated, fails on the script's own chart: in the run of [main]
    on [sample_raw] the first column is "Country_Avg_line" and the vector
    of the category "Regions" hides it. *)
Lemma aggregate_column_hidden_in_regions :
  exists fig b,
    main sample_raw [] =
      (Ok tt, [EvShow fig; EvWriteHtml "visual.html" fig]) /\
    nth_error (fig_traces fig) 0 = Some (Country_Avg_line, VLegendOnly) /\
    nth_error (fig_buttons fig) 3 = Some b /\
    label b = "Regions" /\
    nth_error (snd (args b)) 0 = Some VFalse.
Proof.
  eexists. eexists.
  split; [vm_compute; reflexivity|].
  repeat split; reflexivity.
Qed.

(** C2.  In a run of [create_chart] that returns, the buttons after
    "All" are those of the categories of the mapping, in its order, and
    the vector of each follows, column by column, the rule: for the
    category "Countries", collapsed in the legend for a member of the
    option list other than "Country_Avg_line", shown for the member
    "Country_Avg_line", hidden for a column outside the option list; for
    every other category, members shown and the others hidden. *)
Theorem category_vectors_follow_rule :
  forall (fo : dict (list string)) (df : DataFrame) (tr tr' : list event),
  create_chart fo df tr = (Ok tt, tr') ->
  exists fig,
    tr' = tr ++ [EvShow fig; EvWriteHtml "visual.html" fig] /\
    Forall2
      (fun category_name b =>
         label b = category_name /\
         exists options,
           dict_getitem fo category_name = Ok options /\
           Forall2 (Spec.category_rule category_name options)
                   (columns df) (snd (args b)))
      (map fst fo) (tl (fig_buttons fig)).
Proof.
  intros fo df tr tr' Hrun. exists (Spec.chart_figure fo df).
  split; [now apply create_chart_Ok in Hrun|].
  simpl. apply Forall2_map_same. intros k Hk. split; [reflexivity|].
  exists (Spec.options_of fo k). split; [now apply options_of_keys|].
  simpl. apply Forall2_map_same. intros col _.
  apply visibility_of_rule.
Qed.

Lemma category_vectors_follow_rule_witness :
  create_chart sample_chart_options sample_chart []
  = (Ok tt, sample_chart_trace) /\
  exists fig,
    sample_chart_trace
    = [] ++ [EvShow fig; EvWriteHtml "visual.html" fig] /\
    Forall2
      (fun category_name b =>
         label b = category_name /\
         exists options,
           dict_getitem sample_chart_options category_name = Ok options /\
           Forall2 (Spec.category_rule category_name options)
                   (columns sample_chart) (snd (args b)))
      (map fst sample_chart_options) (tl (fig_buttons fig)).
Proof.
  split; [exact sample_chart_runs|].
  exact (category_vectors_follow_rule
           sample_chart_options sample_chart [] sample_chart_trace
           sample_chart_runs).
Defined.

(** C3.  In a run of [create_chart] that returns, whatever the table, the
    first option is "All", and its vector has one entry per column of
    the table, every entry ['legendonly']. *)
Theorem all_option_vector :
  forall (fo : dict (list string)) (df : DataFrame) (tr tr' : list event),
  create_chart fo df tr = (Ok tt, tr') ->
  exists fig b rest,
    tr' = tr ++ [EvShow fig; EvWriteHtml "visual.html" fig] /\
    fig_buttons fig = b :: rest /\
    label b = "All" /\
    List.length (snd (args b)) = List.length (columns df) /\
    Forall (fun v => v = VLegendOnly) (snd (args b)).
Proof.
  intros fo df tr tr' Hrun.
  exists (Spec.chart_figure fo df), (Spec.all_button (columns df)),
         (map (Spec.category_button fo (columns df)) (keys fo)).
  split; [now apply create_chart_Ok in Hrun|].
  repeat split; simpl.
  - apply repeat_length.
  - apply Forall_forall. intros v Hv. now apply repeat_spec in Hv.
Qed.

Lemma all_option_vector_witness :
  create_chart sample_chart_options sample_chart []
  = (Ok tt, sample_chart_trace) /\
  exists fig b rest,
    sample_chart_trace
    = [] ++ [EvShow fig; EvWriteHtml "visual.html" fig] /\
    fig_buttons fig = b :: rest /\
    label b = "All" /\
    List.length (snd (args b)) = List.length (columns sample_chart) /\
    Forall (fun v => v = VLegendOnly) (snd (args b)).
Proof.
  split; [exact sample_chart_runs|].
  exact (all_option_vector
           sample_chart_options sample_chart [] sample_chart_trace
           sample_chart_runs).
Defined.

(** C4.  In a run of [create_chart] that returns, a mapping with [n]
    categories gives a dropdown with [n + 1] options: "All" first, then
    the categories in the order of the mapping. *)
Theorem dropdown_options :
  forall (fo : dict (list string)) (df : DataFrame) (tr tr' : list event),
  create_chart fo df tr = (Ok tt, tr') ->
  exists fig,
    tr' = tr ++ [EvShow fig; EvWriteHtml "visual.html" fig] /\
    List.length (fig_buttons fig) = List.length fo + 1 /\
    map label (fig_buttons fig) = "All" :: map fst fo.
Proof.
  intros fo df tr tr' Hrun. exists (Spec.chart_figure fo df).
  split; [now apply create_chart_Ok in Hrun|]. simpl. split.
  - unfold keys. rewrite !length_map. lia.
  - f_equal. rewrite map_map. simpl. apply map_id.
Qed.

Lemma dropdown_options_witness :
  create_chart sample_chart_options sample_chart []
  = (Ok tt, sample_chart_trace) /\
  exists fig,
    sample_chart_trace
    = [] ++ [EvShow fig; EvWriteHtml "visual.html" fig] /\
    List.length (fig_buttons fig) = List.length sample_chart_options + 1 /\
    map label (fig_buttons fig) = "All" :: map fst sample_chart_options.
Proof.
  split; [exact sample_chart_runs|].
  exact (dropdown_options
           sample_chart_options sample_chart [] sample_chart_trace
           sample_chart_runs).
Defined.

(* ================================================================= *)
(** ** Masks, indexers and transposition *)

Lemma compress_seq {A : Type} (f : nat -> bool) (d : A) (l : list A) :
  forall k,
    compress (map f (seq k (List.length l))) l
    = map (fun j => nth (j - k) l d) (filter f (seq k (List.length l))).
Proof.
  induction l as [|x l IH]; intros k; simpl.
  - reflexivity.
  - assert (E : map (fun j => nth (j - S k) l d)
                    (filter f (seq (S k) (List.length l)))
                = map (fun j => nth (j - k) (x :: l) d)
                      (filter f (seq (S k) (List.length l)))).
    { apply map_ext_in. intros j Hj. apply filter_In in Hj.
      destruct Hj as [Hj _]. apply in_seq in Hj.
      replace (j - k) with (S (j - S k)) by lia. reflexivity. }
    destruct (f k); simpl; rewrite IH, E.
    + now rewrite Nat.sub_diag.
    + reflexivity.
Qed.

Lemma compress_positions {A : Type} (f : nat -> bool) (d : A) (l : list A) :
  compress (map f (seq 0 (List.length l))) l
  = map (fun j => nth j l d) (filter f (seq 0 (List.length l))).
Proof.
  rewrite (compress_seq f d l 0). apply map_ext. intros j.
  now rewrite Nat.sub_0_r.
Qed.

Lemma compress_combine {A B : Type} (f : B -> bool) (ys : list B) :
  forall xs : list A,
    List.length xs = List.length ys ->
    compress (map f ys) xs
    = map fst (filter (fun p => f (snd p)) (combine xs ys)).
Proof.
  induction ys as [|y ys IH]; intros [|x xs] Hlen; simpl in *;
    try reflexivity; try discriminate.
  destruct (f y); simpl; rewrite IH by lia; reflexivity.
Qed.

Lemma compress_self {A B : Type} (f : B -> bool) (ys : list B) :
  forall xs : list A,
    List.length xs = List.length ys ->
    compress (map f ys) ys
    = map snd (filter (fun p => f (snd p)) (combine xs ys)).
Proof.
  induction ys as [|y ys IH]; intros [|x xs] Hlen; simpl in *;
    try reflexivity; try discriminate.
  destruct (f y); simpl; rewrite (IH xs) by lia; reflexivity.
Qed.

Lemma any_notna_not_all_null (l : list cell) :
  existsb notna l = negb (Spec.all_null l).
Proof.
  unfold Spec.all_null. induction l as [|c l IH]; simpl.
  - reflexivity.
  - rewrite IH. now destruct (notna c).
Qed.

Lemma in_positions (labels : list string) (l : string) (j : nat) :
  In j (positions labels l) <-> nth_error labels j = Some l.
Proof.
  unfold positions, enumerate.
  assert (G : forall k,
             In j (map fst (filter (fun p => String.eqb (snd p) l)
                                   (combine (seq k (List.length labels))
                                            labels)))
             <-> k <= j /\ nth_error labels (j - k) = Some l).
  { induction labels as [|x labels IH]; intros k; simpl.
    - split; [contradiction|]. intros [_ H].
      destruct (j - k); discriminate.
    - destruct (String.eqb x l) eqn:E; simpl; rewrite IH.
      + apply String.eqb_eq in E. subst x. split.
        * intros [-> | [H1 H2]].
          -- split; [lia|]. now rewrite Nat.sub_diag.
          -- split; [lia|]. replace (j - k) with (S (j - S k)) by lia.
             exact H2.
        * intros [H1 H2]. destruct (Nat.eq_dec k j) as [-> | Hne].
          -- now left.
          -- right. split; [lia|].
             replace (j - k) with (S (j - S k)) in H2 by lia. exact H2.
      + apply String.eqb_neq in E. split.
        * intros [H1 H2]. split; [lia|].
          replace (j - k) with (S (j - S k)) by lia. exact H2.
        * intros [H1 H2]. destruct (Nat.eq_dec k j) as [-> | Hne].
          -- rewrite Nat.sub_diag in H2. simpl in H2. congruence.
          -- split; [lia|].
             replace (j - k) with (S (j - S k)) in H2 by lia. exact H2. }
  rewrite G, Nat.sub_0_r. split; [now intros [_ H] | intros H; split; [lia | exact H]].
Qed.

Lemma positions_nonempty (labels : list string) (l : string) :
  In l labels -> positions labels l <> [].
Proof.
  intros H. apply In_nth_error in H. destruct H as [j Hj].
  apply in_positions in Hj. intros E. rewrite E in Hj. contradiction.
Qed.

Lemma fold_left_flat {A B : Type} (g : A -> list B) (l : list A)
      (acc : list B) :
  fold_left (fun acc x => acc ++ g x) l acc = acc ++ flat_map g l.
Proof.
  revert acc. induction l as [|x l IH]; intros acc; simpl.
  - now rewrite app_nil_r.
  - rewrite IH, app_assoc. reflexivity.
Qed.

(** The indexer of labels that are all present: the positions of each, one
    label after the other. *)
Lemma get_indexer_strict_eq (labels key : list string) :
  incl key labels ->
  get_indexer_strict labels key = Ok (flat_map (positions labels) key).
Proof.
  intros Hincl. unfold get_indexer_strict.
  rewrite (for_each_fold (fun acc l => acc ++ positions labels l)).
  - now rewrite fold_left_flat.
  - intros acc l Hl. pose proof (positions_nonempty labels l (Hincl l Hl)).
    destruct (positions labels l); [contradiction | reflexivity].
Qed.

(** A label that is absent makes the indexer raise. *)
Lemma get_indexer_strict_missing (labels key : list string) :
  ~ incl key labels -> get_indexer_strict labels key = Raise KeyError.
Proof.
  unfold get_indexer_strict. generalize (@nil nat).
  induction key as [|l key IH]; intros acc Hn.
  - exfalso. apply Hn. intros x Hx. contradiction.
  - simpl. destruct (positions labels l) as [|p ps] eqn:E.
    + reflexivity.
    + simpl. apply IH. intros Hincl. apply Hn.
      intros x [<- | Hx]; [|now apply Hincl].
      assert (Hp : In p (positions labels l)) by (rewrite E; now left).
      apply in_positions in Hp. now apply nth_error_In in Hp.
Qed.

Lemma own_indexer_covers (cols : list string) (j : nat) :
  j < List.length cols -> In j (flat_map (positions cols) cols).
Proof.
  intros Hj. destruct (nth_error cols j) as [l|] eqn:E.
  - apply in_flat_map. exists l. split.
    + now apply nth_error_In in E.
    + now apply in_positions.
  - apply nth_error_None in E. lia.
Qed.

(** Inspecting a row through the indexer of all the column labels finds a
    non-null cell exactly when the row has one. *)
Lemma any_notna_through_indexer (cols : list string) (r : list cell) :
  List.length r = List.length cols ->
  existsb notna (map (fun j => nth j r None) (flat_map (positions cols) cols))
  = existsb notna r.
Proof.
  intros Hlen. apply eq_true_iff_eq. rewrite !existsb_exists. split.
  - intros [c [Hc Hn]]. apply in_map_iff in Hc. destruct Hc as [j [Hj _]].
    exists c. split; [|exact Hn]. subst c.
    destruct (Nat.lt_ge_cases j (List.length r)) as [Hlt | Hge].
    + now apply nth_In.
    + rewrite nth_overflow in Hn by exact Hge. discriminate.
  - intros [c [Hc Hn]]. exists c. split; [|exact Hn].
    apply (In_nth _ _ None) in Hc. destruct Hc as [j [Hj Hc]].
    apply in_map_iff. exists j. split; [exact Hc|].
    apply own_indexer_covers. now rewrite <- Hlen.
Qed.

Lemma wf_rows (df : DataFrame) (r : list cell) :
  wf df -> In r (values df) -> List.length r = List.length (columns df).
Proof.
  intros [_ H] Hr. rewrite Forall_forall in H. now apply H.
Qed.

Lemma wfb_wf (df : DataFrame) : wfb df = true -> wf df.
Proof.
  unfold wfb, wf. intros H. apply andb_prop in H. destruct H as [H1 H2].
  split.
  - now apply Nat.eqb_eq.
  - apply Forall_forall. intros r Hr. rewrite forallb_forall in H2.
    apply Nat.eqb_eq. now apply H2.
Qed.

(** Line 107 drops exactly the columns that are entirely null. *)
Lemma dropna_columns_eq (df : DataFrame) :
  wf df -> dropna Axis1 HowAll None df = Ok (Spec.drop_null_columns df).
Proof.
  intros Hwf. unfold dropna, Spec.drop_null_columns, take_cols,
                Spec.kept_columns. simpl. f_equal.
  assert (Ef : filter (fun j => existsb notna (column j (values df)))
                      (seq 0 (List.length (columns df)))
               = filter (fun j => negb (Spec.all_null (column j (values df))))
                        (seq 0 (List.length (columns df)))).
  { apply filter_ext. intros j. apply any_notna_not_all_null. }
  f_equal.
  - rewrite (compress_positions _ EmptyString). now rewrite Ef.
  - apply map_ext_in. intros r Hr.
    rewrite <- Ef, <- (wf_rows df r Hwf Hr).
    apply compress_positions.
Qed.

Lemma wf_drop_null_columns (df : DataFrame) :
  wf df -> wf (Spec.drop_null_columns df).
Proof.
  intros [H1 H2]. unfold wf, Spec.drop_null_columns, take_cols. simpl.
  split.
  - now rewrite length_map.
  - apply Forall_forall. intros r Hr. apply in_map_iff in Hr.
    destruct Hr as [r' [<- _]]. now rewrite !length_map.
Qed.

(** Line 111 drops exactly the rows that are entirely null. *)
Lemma dropna_rows_eq (df : DataFrame) :
  wf df ->
  dropna Axis0 HowAll (Some (columns df)) df = Ok (Spec.drop_null_rows df).
Proof.
  intros Hwf. unfold dropna.
  rewrite get_indexer_strict_eq by apply incl_refl. simpl.
  unfold Spec.drop_null_rows. f_equal.
  rewrite map_map.
  assert (Em : map (fun r => existsb notna
                      (map (fun j => nth j r None)
                           (flat_map (positions (columns df)) (columns df))))
                   (values df)
               = map (fun r => negb (Spec.all_null r)) (values df)).
  { apply map_ext_in. intros r Hr.
    rewrite any_notna_through_indexer by now apply wf_rows.
    apply any_notna_not_all_null. }
  rewrite Em. destruct Hwf as [Hlen _]. f_equal.
  - apply (compress_combine (fun r => negb (Spec.all_null r))).
    now symmetry.
  - apply (compress_self (fun r => negb (Spec.all_null r))).
    now symmetry.
Qed.

Lemma wf_drop_null_rows (df : DataFrame) :
  wf df -> wf (Spec.drop_null_rows df).
Proof.
  intros [H1 H2]. unfold wf, Spec.drop_null_rows. simpl. split.
  - now rewrite !length_map.
  - apply Forall_forall. intros r Hr. apply in_map_iff in Hr.
    destruct Hr as [[l r'] [<- Hin]]. apply filter_In in Hin.
    destruct Hin as [Hin _]. apply in_combine_r in Hin.
    rewrite Forall_forall in H2. now apply H2.
Qed.

Lemma combine_columns (g : nat -> list cell) (r : list cell) :
  forall k,
    map (fun cr => fst cr :: snd cr)
        (combine r (map g (seq k (List.length r))))
    = map (fun j => nth (j - k) r None :: g j) (seq k (List.length r)).
Proof.
  induction r as [|c r IH]; intros k; simpl.
  - reflexivity.
  - rewrite Nat.sub_diag. f_equal. rewrite IH.
    apply map_ext_in. intros j Hj. apply in_seq in Hj.
    replace (j - k) with (S (j - S k)) by lia. reflexivity.
Qed.

(** Reading the columns off one by one is the transposition. *)
Lemma columns_transpose (n : nat) (rows : list (list cell)) :
  Forall (fun r => List.length r = n) rows ->
  map (fun j => column j rows) (seq 0 n) = Spec.transpose n rows.
Proof.
  induction rows as [|r rows IH]; intros H; simpl.
  - generalize 0. induction n as [|n IHn]; intros k; simpl.
    + reflexivity.
    + now rewrite IHn.
  - inversion H as [|? ? Hr Hrows]; subst.
    rewrite <- IH by exact Hrows.
    rewrite combine_columns. apply map_ext. intros j.
    now rewrite Nat.sub_0_r.
Qed.

(* ================================================================= *)
(** ** The reshaper *)

Lemma round_rows_length (n : nat) (rows : list (list cell)) :
  Forall (fun r => List.length r = n) rows ->
  Forall (fun r => List.length r = n)
         (map (map (option_map (np_round 1))) rows).
Proof.
  intros H. apply Forall_forall. intros r Hr. apply in_map_iff in Hr.
  destruct Hr as [r' [<- Hin]]. rewrite length_map.
  rewrite Forall_forall in H. now apply H.
Qed.

(** On a rectangular table [preprocess_df] returns, and what it returns
    is the five steps in order, every "YR" deleted from the labels. *)
Lemma preprocess_df_eq (df : DataFrame) :
  wf df -> preprocess_df df = Ok (Spec.reshape remove_YR df).
Proof.
  intros Hwf. unfold preprocess_df.
  rewrite dropna_columns_eq by exact Hwf. cbn [bind].
  pose proof (wf_drop_null_columns df Hwf) as Hwf1.
  rewrite dropna_rows_eq by exact Hwf1. cbn [bind].
  pose proof (wf_drop_null_rows _ Hwf1) as [_ Hrows].
  set (df2 := Spec.drop_null_rows (Spec.drop_null_columns df)) in *.
  unfold Spec.reshape, Spec.years_as_rows, Spec.round_one_decimal,
         Spec.rename_columns, T, round.
  cbn [index index_name columns columns_name values].
  f_equal. f_equal.
  apply columns_transpose. apply round_rows_length.
  rewrite length_map. exact Hrows.
Qed.

Lemma remove_YR_absent (s : string) :
  Spec.occurs_YR s = false -> remove_YR s = s.
Proof.
  induction s as [|c rest IH]; intros H.
  - reflexivity.
  - destruct rest as [|d rest'].
    + reflexivity.
    + cbn [Spec.occurs_YR] in H. apply orb_false_iff in H.
      destruct H as [H1 H2]. cbn [remove_YR]. rewrite H1.
      f_equal. now apply IH.
Qed.

Lemma substring_all (s : string) :
  String.substring 0 (String.length s) s = s.
Proof.
  induction s as [|c s IH]; simpl; [reflexivity | now rewrite IH].
Qed.

(** Where "YR" occurs at most as the prefix of a label, deleting every
    "YR" is stripping the prefix. *)
Lemma remove_YR_strip_prefix (s : string) :
  Spec.YR_only_prefix s -> remove_YR s = Spec.strip_prefix "YR" s.
Proof.
  unfold Spec.YR_only_prefix, Spec.strip_prefix.
  destruct s as [|c [|d r]].
  - reflexivity.
  - cbn [String.prefix]. destruct (ascii_dec "Y" c); intros _; reflexivity.
  - cbn [String.prefix].
    destruct (ascii_dec "Y" c) as [<- | Hc].
    + destruct (ascii_dec "R" d) as [<- | Hd].
      * cbn [String.length Nat.sub String.substring].
        replace (String.prefix EmptyString r) with true
          by (destruct r; reflexivity).
        rewrite Nat.sub_0_r, substring_all. intros H. cbn [remove_YR].
        cbn [Ascii.eqb Bool.eqb andb]. now apply remove_YR_absent.
      * intros H. now apply remove_YR_absent.
    + intros H. now apply remove_YR_absent.
Qed.

Lemma reshape_rename_ext (f g : string -> string) (df : DataFrame) :
  Forall (fun l => f l = g l) (columns df) ->
  Spec.reshape f df = Spec.reshape g df.
Proof.
  intros H. unfold Spec.reshape, Spec.years_as_rows,
              Spec.round_one_decimal, Spec.rename_columns.
  cbn [index index_name columns columns_name values].
  assert (E : map f (columns (Spec.drop_null_columns df))
              = map g (columns (Spec.drop_null_columns df))).
  { apply map_ext_in. intros l Hl.
    unfold Spec.drop_null_columns, take_cols in Hl. simpl in Hl.
    apply in_map_iff in Hl. destruct Hl as [j [<- Hj]].
    unfold Spec.kept_columns in Hj. apply filter_In in Hj.
    destruct Hj as [Hj _]. apply in_seq in Hj.
    rewrite Forall_forall in H. apply H. apply nth_In. lia. }
  change (columns (Spec.drop_null_rows (Spec.drop_null_columns df)))
    with (columns (Spec.drop_null_columns df)).
  rewrite E. reflexivity.
Qed.

Lemma filter_map_comm {A B : Type} (p : B -> bool) (g : A -> B) (l : list A) :
  filter p (map g l) = map g (filter (fun x => p (g x)) l).
Proof.
  induction l as [|x l IH]; simpl; [reflexivity|].
  destruct (p (g x)); simpl; now rewrite IH.
Qed.

Lemma filter_combine_snd {A B : Type} (p : B -> bool) (ys : list B) :
  forall xs : list A,
    List.length xs = List.length ys ->
    map snd (filter (fun lr => p (snd lr)) (combine xs ys)) = filter p ys.
Proof.
  induction ys as [|y ys IH]; intros [|x xs] Hlen; simpl in *;
    try reflexivity; try discriminate.
  destruct (p y); simpl; rewrite IH by lia; reflexivity.
Qed.

Lemma map_nth_seq {A B : Type} (G : A -> B) (d : A) (l : list A) :
  map (fun k => G (nth k l d)) (seq 0 (List.length l)) = map G l.
Proof.
  rewrite <- (map_map (fun k => nth k l d) G). f_equal.
  induction l as [|x l IH]; simpl; [reflexivity|]. f_equal.
  rewrite <- seq_shift, map_map. exact IH.
Qed.

Lemma all_null_forall (l : list cell) :
  Spec.all_null l = true <-> forall c, In c l -> c = None.
Proof.
  unfold Spec.all_null. rewrite forallb_forall. split.
  - intros H c Hc. specialize (H c Hc). now destruct c.
  - intros H c Hc. now rewrite (H c Hc).
Qed.

(** A row is entirely null on the columns that remain exactly when it is
    entirely null. *)
Lemma all_null_on_kept_columns (df : DataFrame) (r : list cell) :
  wf df -> In r (values df) ->
  Spec.all_null (map (fun j => nth j r None) (Spec.kept_columns df))
  = Spec.all_null r.
Proof.
  intros Hwf Hr. apply eq_true_iff_eq. rewrite !all_null_forall. split.
  - intros H c Hc. apply (In_nth _ _ None) in Hc.
    destruct Hc as [j [Hj <-]].
    destruct (Spec.all_null (column j (values df))) eqn:E.
    + rewrite all_null_forall in E. apply E. unfold column.
      apply in_map_iff. now exists r.
    + apply H. apply in_map_iff. exists j. split; [reflexivity|].
      unfold Spec.kept_columns. apply filter_In. split.
      * apply in_seq. rewrite <- (wf_rows df r Hwf Hr). split; [apply Nat.le_0_l | exact Hj].
      * now rewrite E.
  - intros H c Hc. apply in_map_iff in Hc. destruct Hc as [j [<- _]].
    destruct (Nat.lt_ge_cases j (List.length r)) as [Hlt | Hge].
    + apply H. now apply nth_In.
    + now apply nth_overflow.
Qed.

(** The rows that survive line 111, read on the columns that remain. *)
Lemma values_after_drops (df : DataFrame) :
  wf df ->
  values (Spec.drop_null_rows (Spec.drop_null_columns df))
  = map (fun r => map (fun j => nth j r None) (Spec.kept_columns df))
        (Spec.kept_rows df).
Proof.
  intros Hwf. pose proof (wf_drop_null_columns df Hwf) as [Hlen _].
  unfold Spec.drop_null_rows. cbn [values].
  rewrite (filter_combine_snd (fun r => negb (Spec.all_null r)))
    by now symmetry.
  unfold Spec.drop_null_columns, take_cols. cbn [values].
  rewrite filter_map_comm. f_equal. unfold Spec.kept_rows.
  apply filter_ext_in. intros r Hr.
  now rewrite all_null_on_kept_columns.
Qed.

(** Every row of the reshaped table is one of the columns that are not
    entirely null, in their order: its label with "YR" deleted, its cells
    rounded, on the rows that are not entirely null. *)
Lemma reshape_rows (f : string -> string) (df : DataFrame) :
  wf df ->
  index (Spec.reshape f df)
  = map (fun j => f (nth j (columns df) EmptyString)) (Spec.kept_columns df)
  /\
  values (Spec.reshape f df)
  = map (fun j => map (option_map (np_round 1))
                      (column j (Spec.kept_rows df)))
        (Spec.kept_columns df).
Proof.
  intros Hwf. split.
  - unfold Spec.reshape, Spec.years_as_rows, Spec.round_one_decimal,
      Spec.rename_columns, Spec.drop_null_rows, Spec.drop_null_columns,
      take_cols.
    cbn [index columns]. now rewrite map_map.
  - pose proof (wf_drop_null_rows _ (wf_drop_null_columns df Hwf))
      as [_ Hrows].
    unfold Spec.reshape, Spec.years_as_rows, Spec.round_one_decimal,
      Spec.rename_columns.
    cbn [index index_name columns columns_name values].
    rewrite <- columns_transpose
      by (apply round_rows_length; rewrite length_map; exact Hrows).
    rewrite values_after_drops by exact Hwf.
    change (columns (Spec.drop_null_rows (Spec.drop_null_columns df)))
      with (map (fun j => nth j (columns df) EmptyString)
                (Spec.kept_columns df)).
    rewrite !length_map.
    rewrite <- (map_nth_seq
                  (fun j => map (option_map (np_round 1))
                                (column j (Spec.kept_rows df)))
                  0 (Spec.kept_columns df)).
    apply map_ext_in. intros k Hk. apply in_seq in Hk.
    unfold column. rewrite !map_map. apply map_ext. intros r.
    transitivity
      (option_map (np_round 1)
         (nth k (map (fun j => nth j r None) (Spec.kept_columns df)) None)).
    { exact (map_nth (option_map (np_round 1)) _ None k). }
    f_equal.
    rewrite (nth_indep _ None (nth 0 r None))
      by (rewrite length_map; lia).
    apply (map_nth (fun j => nth j r None)).
Qed.

Lemma kept_columns_spec (df : DataFrame) (j : nat) :
  In j (Spec.kept_columns df) <->
  j < List.length (columns df) /\
  Spec.all_null (column j (values df)) = false.
Proof.
  unfold Spec.kept_columns. rewrite filter_In, in_seq, negb_true_iff.
  split; intros [H1 H2]; split; try exact H2; lia.
Qed.

Lemma filter_length_lt {A : Type} (p : A -> bool) (l : list A) (x : A) :
  In x l -> p x = false -> List.length (filter p l) < List.length l.
Proof.
  induction l as [|y l IH]; intros Hin Hp; [contradiction|].
  simpl. pose proof (filter_length_le p l) as Hle.
  destruct Hin as [-> | Hin].
  - rewrite Hp. lia.
  - specialize (IH Hin Hp). destruct (p y); simpl; lia.
Qed.

Lemma wf_sample_raw : wf sample_raw.
Proof. apply wfb_wf. reflexivity. Qed.

(** C5, as amended.  On a rectangular table [preprocess_df] returns the
    result of these steps, in this order: drop the columns that are
    entirely null; drop the rows that are entirely null on the columns
    that remain; delete every occurrence of "YR" from the column labels;
    round the values to one decimal place; transpose, the labels of the
    years becoming the row index.  Where "YR" occurs in a label at most
    as its prefix, the third step is stripping that prefix. *)
Theorem preprocess_df_steps (df : DataFrame) :
  wf df ->
  preprocess_df df = Ok (Spec.reshape remove_YR df) /\
  (Forall Spec.YR_only_prefix (columns df) ->
   preprocess_df df = Ok (Spec.reshape (Spec.strip_prefix "YR") df)).
Proof.
  intros Hwf. split.
  - now apply preprocess_df_eq.
  - intros Hyr. rewrite preprocess_df_eq by exact Hwf. f_equal.
    apply reshape_rename_ext.
    eapply Forall_impl; [|exact Hyr].
    intros l Hl. now apply remove_YR_strip_prefix.
Qed.

Lemma preprocess_df_steps_witness :
  wf sample_raw /\
  Forall Spec.YR_only_prefix (columns sample_raw) /\
  preprocess_df sample_raw = Ok (Spec.reshape remove_YR sample_raw) /\
  preprocess_df sample_raw
  = Ok (Spec.reshape (Spec.strip_prefix "YR") sample_raw).
Proof.
  assert (Hyr : Forall Spec.YR_only_prefix (columns sample_raw)).
  { repeat constructor. }
  destruct (preprocess_df_steps sample_raw wf_sample_raw) as [H1 H2].
  split; [exact wf_sample_raw|].
  split; [exact Hyr|].
  split; [exact H1 | exact (H2 Hyr)].
Defined.

(** C5, as stated, fails on a label in which "YR" is not a prefix: the
    code turns "MYR2000" into "M2000", stripping the prefix "YR" leaves
    the label as it is. *)
Lemma preprocess_df_not_prefix_strip :
  wf sample_label /\
  (exists out, preprocess_df sample_label = Ok out /\ index out = ["M2000"]) /\
  index (Spec.reshape (Spec.strip_prefix "YR") sample_label) = ["MYR2000"] /\
  preprocess_df sample_label
  <> Ok (Spec.reshape (Spec.strip_prefix "YR") sample_label).
Proof.
  split; [apply wfb_wf; reflexivity|].
  split; [eexists; split; reflexivity|].
  split; [reflexivity|].
  intros H. apply (f_equal (fun r => match r with
                                     | Ok out => index out
                                     | Raise _ => []
                                     end)) in H.
  vm_compute in H. discriminate.
Qed.

(** C6.  On a table with at least one column that is entirely null,
    [preprocess_df] removes exactly the columns that are entirely null:
    the rows of its result are, in order, the columns that have a cell
    that is not null (label without "YR", cells rounded, on the rows that
    are not entirely null), and they are fewer than the columns of the
    input. *)
Theorem preprocess_df_drops_null_columns (df : DataFrame) :
  wf df ->
  (exists j, j < List.length (columns df) /\
             Spec.all_null (column j (values df)) = true) ->
  exists out,
    preprocess_df df = Ok out /\
    (forall j, In j (Spec.kept_columns df) <->
               j < List.length (columns df) /\
               Spec.all_null (column j (values df)) = false) /\
    index out
    = map (fun j => remove_YR (nth j (columns df) EmptyString))
          (Spec.kept_columns df) /\
    values out
    = map (fun j => map (option_map (np_round 1))
                        (column j (Spec.kept_rows df)))
          (Spec.kept_columns df) /\
    List.length (index out) < List.length (columns df).
Proof.
  intros Hwf [j0 [Hj0 Hnull]].
  exists (Spec.reshape remove_YR df).
  destruct (reshape_rows remove_YR df Hwf) as [Hi Hv].
  split; [now apply preprocess_df_eq|].
  split; [apply kept_columns_spec|].
  split; [exact Hi|]. split; [exact Hv|].
  rewrite Hi, length_map. unfold Spec.kept_columns.
  pose proof (filter_length_lt
                (fun j => negb (Spec.all_null (column j (values df))))
                (seq 0 (List.length (columns df))) j0) as Hlt.
  rewrite length_seq in Hlt. apply Hlt.
  - apply in_seq. lia.
  - now rewrite Hnull.
Qed.

Lemma preprocess_df_drops_null_columns_witness :
  wf sample_raw /\
  (exists j, j < List.length (columns sample_raw) /\
             Spec.all_null (column j (values sample_raw)) = true) /\
  exists out,
    preprocess_df sample_raw = Ok out /\
    (forall j, In j (Spec.kept_columns sample_raw) <->
               j < List.length (columns sample_raw) /\
               Spec.all_null (column j (values sample_raw)) = false) /\
    index out
    = map (fun j => remove_YR (nth j (columns sample_raw) EmptyString))
          (Spec.kept_columns sample_raw) /\
    values out
    = map (fun j => map (option_map (np_round 1))
                        (column j (Spec.kept_rows sample_raw)))
          (Spec.kept_columns sample_raw) /\
    List.length (index out) < List.length (columns sample_raw).
Proof.
  assert (Hnull : exists j, j < List.length (columns sample_raw) /\
                    Spec.all_null (column j (values sample_raw)) = true).
  { exists 1. split; [simpl; lia | reflexivity]. }
  split; [exact wf_sample_raw|].
  split; [exact Hnull|].
  exact (preprocess_df_drops_null_columns sample_raw wf_sample_raw Hnull).
Defined.

(* ================================================================= *)
(** ** The country columns and their average *)

Lemma index_from_missing (x : string) (l : list string) :
  ~ In x l -> forall k, index_from x l k = Raise ValueError.
Proof.
  induction l as [|y l IH]; intros Hn k; simpl.
  - reflexivity.
  - destruct (String.eqb y x) eqn:E.
    + apply String.eqb_eq in E. exfalso. apply Hn. now left.
    + apply IH. intros H. apply Hn. now right.
Qed.

(** [l.index(x)] is the first position of [x]. *)
Lemma index_from_In (x : string) (l : list string) :
  In x l ->
  forall k, exists j,
    index_from x l k = Ok (k + j) /\
    nth_error l j = Some x /\
    ~ In x (firstn j l).
Proof.
  induction l as [|y l IH]; intros Hin k; [contradiction|].
  simpl. destruct (String.eqb y x) eqn:E.
  - apply String.eqb_eq in E. subst y. exists 0.
    rewrite Nat.add_0_r. repeat split. intros H. exact H.
  - apply String.eqb_neq in E. destruct Hin as [H | H]; [contradiction|].
    destruct (IH H (S k)) as [j [H1 [H2 H3]]]. exists (S j).
    rewrite Nat.add_succ_r. repeat split; try assumption.
    simpl. intros [H' | H']; [contradiction | now apply H3].
Qed.

Lemma positions_from_absent (l : string) (cols : list string) :
  ~ In l cols ->
  forall k,
    filter (fun p => String.eqb (snd p) l)
           (combine (seq k (List.length cols)) cols) = [].
Proof.
  induction cols as [|x cols IH]; intros Hn k; simpl.
  - reflexivity.
  - destruct (String.eqb x l) eqn:E.
    + apply String.eqb_eq in E. exfalso. apply Hn. now left.
    + apply IH. intros H. apply Hn. now right.
Qed.

Lemma positions_from_unique (l : string) (cols : list string) :
  NoDup cols ->
  forall k j,
    index_from l cols k = Ok j ->
    map fst (filter (fun p => String.eqb (snd p) l)
                    (combine (seq k (List.length cols)) cols)) = [j].
Proof.
  induction cols as [|x cols IH]; intros Hnd k j H; simpl in *.
  - discriminate.
  - inversion Hnd as [|? ? Hx Hnd']; subst.
    destruct (String.eqb x l) eqn:E.
    + apply String.eqb_eq in E. subst x. injection H as <-.
      simpl. now rewrite positions_from_absent.
    + now apply IH.
Qed.

(** With distinct labels the indexer of a label is its one position. *)
Lemma positions_unique (cols : list string) (l : string) (j : nat) :
  NoDup cols -> list_index cols l = Ok j -> positions cols l = [j].
Proof.
  intros Hnd H. unfold positions, enumerate.
  now apply positions_from_unique.
Qed.

Lemma list_index_In (cols : list string) (l : string) :
  In l cols -> exists j, list_index cols l = Ok j /\ nth_error cols j = Some l.
Proof.
  intros H. destruct (index_from_In l cols H 0) as [j [H1 [H2 _]]].
  exists j. split; [exact H1 | exact H2].
Qed.

(** Reading a row through the indexer of distinct labels reads the cell
    of each label. *)
Lemma take_by_labels (cols key : list string) (r : list cell) :
  NoDup cols -> incl key cols ->
  map (fun j => nth j r None) (flat_map (positions cols) key)
  = map (Spec.cell_at cols r) key.
Proof.
  intros Hnd. induction key as [|l key IH]; intros Hincl; simpl.
  - reflexivity.
  - assert (Hl : In l cols) by (apply Hincl; now left).
    destruct (list_index_In cols l Hl) as [j [Hj _]].
    rewrite (positions_unique cols l j Hnd Hj). simpl.
    unfold Spec.cell_at at 1. rewrite Hj. f_equal.
    apply IH. intros x Hx. apply Hincl. now right.
Qed.

Lemma getitem_cols_eq (df : DataFrame) (labels : list string) :
  incl labels (columns df) ->
  getitem_cols df labels
  = Ok (take_cols (flat_map (positions (columns df)) labels) df).
Proof.
  intros H. unfold getitem_cols. now rewrite get_indexer_strict_eq.
Qed.

Lemma sorted_perm (l : list string) : Permutation l (sorted l).
Proof. apply StringSort.Permuted_sort. Qed.

Lemma sorted_incl (l cols : list string) :
  incl l cols -> incl (sorted l) cols.
Proof.
  intros H x Hx. apply H.
  apply (Permutation_in x (Permutation_sym (sorted_perm l))). exact Hx.
Qed.

Lemma firstn_incl {A : Type} (n : nat) (l : list A) : incl (firstn n l) l.
Proof.
  intros x Hx. rewrite <- (firstn_skipn n l). apply in_or_app. now left.
Qed.

(** The cell that [setitem] wrote, read back by its label. *)
Lemma setitem_cell (cols : list string) (r : list cell) (label : string)
      (v : cell) :
  List.length r = List.length cols ->
  (In label cols ->
   Spec.cell_at cols
     (map (fun lc => if String.eqb (fst lc) label then v else snd lc)
          (combine cols r)) label = v) /\
  (~ In label cols ->
   Spec.cell_at (cols ++ [label]) (r ++ [v]) label = v).
Proof.
  intros Hlen. unfold Spec.cell_at, list_index. split.
  - intros Hin. destruct (list_index_In cols label Hin) as [j [Hj Hn]].
    unfold list_index in Hj. rewrite Hj.
    clear Hj Hin. revert r j Hlen Hn.
    induction cols as [|x cols IH]; intros [|c r] [|j] Hlen Hn;
      simpl in *; try discriminate.
    + injection Hn as ->. now rewrite String.eqb_refl.
    + apply IH; [lia | exact Hn].
  - intros Hn.
    assert (G : forall k, index_from label (cols ++ [label]) k
                          = Ok (k + List.length cols)).
    { clear Hlen. induction cols as [|x cols IH]; intros k; simpl.
      - rewrite String.eqb_refl. now rewrite Nat.add_0_r.
      - destruct (String.eqb x label) eqn:E.
        + apply String.eqb_eq in E. exfalso. apply Hn. now left.
        + rewrite IH by (intros H; apply Hn; now right).
          now rewrite Nat.add_succ_r. }
    rewrite G. simpl. rewrite <- Hlen. now rewrite nth_middle.
Qed.

(** Line 152 on a table with distinct labels: the new column holds the
    row-wise means over the columns named in [countries]. *)
Lemma add_country_avg_eq (df : DataFrame) (countries : list string) :
  NoDup (columns df) -> incl countries (columns df) ->
  add_country_avg df countries
  = setitem df Country_Avg_line (Spec.country_means df countries).
Proof.
  intros Hnd Hincl. unfold add_country_avg.
  rewrite getitem_cols_eq by exact Hincl. cbn [bind]. f_equal.
  unfold mean_axis1, take_cols, Spec.country_means. cbn [values].
  rewrite map_map. apply map_ext. intros r.
  now rewrite take_by_labels.
Qed.

Lemma setitem_means_ok (df : DataFrame) (countries : list string) :
  wf df ->
  exists df',
    setitem df Country_Avg_line (Spec.country_means df countries) = Ok df' /\
    index df' = index df /\
    columns df' = (if contains Country_Avg_line (columns df)
                   then columns df
                   else columns df ++ [Country_Avg_line]) /\
    Forall2
      (fun r r' =>
         Spec.cell_at (columns df') r' Country_Avg_line
         = nanmean (map (Spec.cell_at (columns df) r) countries))
      (values df) (values df').
Proof.
  intros Hwf. pose proof Hwf as [Hlen Hrows]. unfold setitem.
  unfold Spec.country_means at 1. rewrite length_map, Hlen, Nat.eqb_refl.
  cbn [negb].
  destruct (contains Country_Avg_line (columns df)) eqn:E.
  - eexists. split; [reflexivity|]. cbn [index columns values].
    split; [reflexivity|]. split; [reflexivity|].
    unfold Spec.country_means. rewrite combine_map_r, map_map.
    apply Forall2_map_same. intros r Hr. cbn [fst snd].
    apply setitem_cell.
    + now apply wf_rows.
    + now apply contains_In.
  - eexists. split; [reflexivity|]. cbn [index columns values].
    split; [reflexivity|]. split; [reflexivity|].
    unfold Spec.country_means. rewrite combine_map_r, map_map.
    apply Forall2_map_same. intros r Hr. cbn [fst snd].
    apply setitem_cell.
    + now apply wf_rows.
    + now apply contains_not_In.
Qed.

Lemma wf_sample_A_B : wf sample_A_B.
Proof. apply wfb_wf. reflexivity. Qed.

Lemma NoDup_sample_A_B : NoDup (columns sample_A_B).
Proof.
  simpl. repeat constructor; simpl; intuition discriminate.
Qed.

(** The example of section 8: with the columns "A" and "B" before "World"
    the new column is the mean of "A" and "B" only, a null cell left
    out. *)
Example country_average_A_B :
  country_columns sample_A_B = Ok ["A"; "B"] /\
  exists df',
    add_country_avg sample_A_B ["A"; "B"] = Ok df' /\
    columns df' = ["B"; "A"; "World"; "Region1"; Country_Avg_line] /\
    column 4 (values df') = [Some 15%Q; Some 1%Q].
Proof.
  split; [reflexivity|]. eexists. split; [reflexivity|].
  split; reflexivity.
Qed.

(* ================================================================= *)
(** ** A table without "World" *)

(** The three stages of [main]. *)
Lemma main_stages (raw : DataFrame) (tr : list event) :
  main raw tr =
  match inspect_dataframe raw with
  | Raise e => (Raise e, tr)
  | Ok _ =>
      match chart_inputs raw with
      | Raise e => (Raise e, tr)
      | Ok fd => create_chart (fst fd) (snd fd) tr
      end
  end.
Proof.
  unfold main, io_bind, io_lift.
  destruct (inspect_dataframe raw); [|reflexivity].
  destruct (chart_inputs raw); reflexivity.
Qed.

Lemma inspect_dataframe_cases (raw : DataFrame) :
  inspect_dataframe raw = Ok tt \/ inspect_dataframe raw = Raise ValueError.
Proof. unfold inspect_dataframe. destruct (columns raw); auto. Qed.

(** A [ValueError] of lines 147-163 is the outcome of the run, whether
    or not the summaries of [inspect_dataframe] raised it first. *)
Lemma main_ValueError (raw : DataFrame) (tr : list event) :
  chart_inputs raw = Raise ValueError ->
  main raw tr = (Raise ValueError, tr).
Proof.
  intros H. rewrite main_stages, H.
  destruct (inspect_dataframe_cases raw) as [-> | ->]; reflexivity.
Qed.

(** C8.  When the reshaped table has no column labelled "World", [main]
    ends with the exception that [list.index] raises, nothing catches it,
    and the trace of the run is the one it started with: the figure is
    neither shown nor written to a file. *)
Theorem main_raises_without_world (raw df : DataFrame) (tr : list event) :
  preprocess_df raw = Ok df ->
  ~ In "World" (columns df) ->
  main raw tr = (Raise ValueError, tr).
Proof.
  intros Hpre Hn. apply main_ValueError. unfold chart_inputs.
  rewrite Hpre. cbn [bind]. unfold country_columns, list_index.
  now rewrite index_from_missing.
Qed.

Lemma main_raises_without_world_witness :
  preprocess_df sample_no_world
  = Ok (Spec.reshape remove_YR sample_no_world) /\
  ~ In "World" (columns (Spec.reshape remove_YR sample_no_world)) /\
  main sample_no_world [] = (Raise ValueError, []).
Proof.
  assert (Hpre : preprocess_df sample_no_world
                 = Ok (Spec.reshape remove_YR sample_no_world))
    by reflexivity.
  assert (Hn : ~ In "World"
                 (columns (Spec.reshape remove_YR sample_no_world))).
  { simpl. intuition discriminate. }
  split; [exact Hpre|]. split; [exact Hn|].
  exact (main_raises_without_world sample_no_world _ [] Hpre Hn).
Defined.

(** The same on a fetch that returned an empty table. *)
Example main_on_empty_table :
  main sample_empty [] = (Raise ValueError, []).
Proof. reflexivity. Qed.

(** A group label that the reshaped table lacks ends the run as well, at
    the selection of line 160, before the figure is built. *)
Example main_on_table_without_groups :
  preprocess_df sample_no_groups
  = Ok (Spec.reshape remove_YR sample_no_groups) /\
  In "World" (columns (Spec.reshape remove_YR sample_no_groups)) /\
  main sample_no_groups [] = (Raise KeyError, []).
Proof.
  split; [reflexivity|]. split; [|reflexivity].
  apply contains_In. reflexivity.
Qed.

(* ================================================================= *)
(** ** Rounding *)

Lemma np_round_1_eq (x : Q) :
  np_round 1 x = Qmake (rint (x * inject_Z 10)) 10.
Proof.
  unfold np_round. change (10 ^ Z.of_nat 1)%Z with 10%Z.
  unfold Qdiv, Qinv, Qmult, inject_Z. cbn [Qnum Qden].
  now rewrite Z.mul_1_r.
Qed.

(** A number of tenths is its own rounding. *)
Lemma rint_tenths (k : Z) : rint (Qmake k 10 * inject_Z 10) = k.
Proof.
  unfold rint, Qmult, inject_Z. cbn [Qnum Qden].
  change (Z.pos (10 * 1)) with 10%Z.
  rewrite Z.div_mul by discriminate. rewrite Z.mod_mul by discriminate.
  reflexivity.
Qed.

(** C9.  Rounding to one decimal place a value that is already the result
    of that rounding returns it unchanged, cell by cell and on the whole
    table. *)
Theorem round_one_decimal_idempotent :
  (forall x : Q, np_round 1 (np_round 1 x) = np_round 1 x) /\
  (forall df : DataFrame, round 1 (round 1 df) = round 1 df).
Proof.
  assert (H : forall x : Q, np_round 1 (np_round 1 x) = np_round 1 x).
  { intros x. rewrite (np_round_1_eq x), np_round_1_eq.
    now rewrite rint_tenths. }
  split; [exact H|].
  intros df. unfold round. cbn [index index_name columns columns_name values].
  f_equal. rewrite map_map. apply map_ext. intros r.
  rewrite map_map. apply map_ext. intros [x|]; simpl; [|reflexivity].
  now rewrite H.
Qed.

(** Any value that is a whole number of tenths, however the fraction is
    written, rounds to itself. *)
Lemma np_round_1_tenths (y : Q) (k : Z) :
  (y == Qmake k 10)%Q -> (np_round 1 y == y)%Q.
Proof.
  intros H. rewrite np_round_1_eq.
  assert (E : rint (y * inject_Z 10) = k).
  { destruct y as [n d]. unfold Qeq in H. cbn [Qnum Qden] in H.
    unfold rint, Qmult, inject_Z. cbn [Qnum Qden].
    rewrite Pos.mul_1_r, H.
    rewrite Z.div_mul by discriminate.
    rewrite Z.mod_mul by discriminate. reflexivity. }
  rewrite E. symmetry. exact H.
Qed.

(* ================================================================= *)
(** ** The table and the options handed to [create_chart] *)

(** Selecting distinct labels by name yields the columns so named, in the
    order asked. *)
Lemma take_labels (cols key : list string) :
  NoDup cols -> incl key cols ->
  map (fun j => nth j cols EmptyString) (flat_map (positions cols) key) = key.
Proof.
  intros Hnd. induction key as [|l key IH]; intros Hincl; simpl.
  - reflexivity.
  - assert (Hl : In l cols) by (apply Hincl; now left).
    destruct (list_index_In cols l Hl) as [j [Hj Hn]].
    rewrite (positions_unique cols l j Hnd Hj). simpl.
    rewrite (nth_error_nth _ _ EmptyString Hn). f_equal.
    apply IH. intros x Hx. apply Hincl. now right.
Qed.

Lemma categories_of_three (a b c : list string) (col : string) :
  Spec.categories_of
    [("Countries", a); ("Income Groups", b); ("Regions", c)] col
  = (if contains col a then ["Countries"] else [])
    ++ (if contains col b then ["Income Groups"] else [])
    ++ (if contains col c then ["Regions"] else []).
Proof.
  unfold Spec.categories_of. simpl.
  destruct (contains col a), (contains col b), (contains col c);
    reflexivity.
Qed.

Lemma region_not_income (l : string) :
  In l region_grps ->
  contains l income_grps = false /\ l <> Country_Avg_line.
Proof.
  intros H. simpl in H.
  repeat (destruct H as [<- | H]; [split; [reflexivity | discriminate]|]).
  contradiction.
Qed.

Lemma income_not_region (l : string) :
  In l income_grps ->
  contains l region_grps = false /\ l <> Country_Avg_line.
Proof.
  intros H. simpl in H.
  repeat (destruct H as [<- | H]; [split; [reflexivity | discriminate]|]).
  contradiction.
Qed.

Lemma labels_before_eq (x : string) (cols : list string) (w : nat) :
  list_index cols x = Ok w -> Spec.labels_before x cols = firstn w cols.
Proof. intros H. unfold Spec.labels_before. now rewrite H. Qed.

(** C10, as amended.  For a reshaped table with distinct column labels
    that holds "World" and the eleven group labels, none of them before
    "World": the table handed to [create_chart] has the columns
    "Country_Avg_line", then the labels that stood before "World" in
    alphabetical order, then the seven regions, then the four income
    groups; every one of its columns is in the option list of exactly one
    category, "Country_Avg_line" in that of "Countries"; a reshaped column
    outside these lists is not in it. *)
Theorem final_table_columns (raw df : DataFrame) :
  preprocess_df raw = Ok df ->
  wf df ->
  NoDup (columns df) ->
  In "World" (columns df) ->
  incl (region_grps ++ income_grps) (columns df) ->
  (forall l, In l (Spec.labels_before "World" (columns df)) ->
             ~ In l (region_grps ++ income_grps)) ->
  exists countries fo final,
    countries = sorted (Spec.labels_before "World" (columns df)) /\
    chart_inputs raw = Ok (fo, final) /\
    fo = [("Countries", [Country_Avg_line] ++ countries);
          ("Income Groups", income_grps);
          ("Regions", region_grps)] /\
    columns final
    = ([Country_Avg_line] ++ countries) ++ region_grps ++ income_grps /\
    (forall col, In col (columns final) ->
                 exists k, Spec.categories_of fo col = [k]) /\
    Spec.categories_of fo Country_Avg_line = ["Countries"] /\
    (forall l, In l (columns df) ->
               ~ In l (([Country_Avg_line] ++ countries)
                       ++ region_grps ++ income_grps) ->
               ~ In l (columns final)).
Proof.
  intros Hpre Hwf Hnd Hw Hgroups Hdisj.
  destruct (list_index_In _ _ Hw) as [w [Hi _]].
  rewrite (labels_before_eq _ _ _ Hi) in *.
  set (countries := sorted (firstn w (columns df))).
  assert (Hincl : incl countries (columns df))
    by (apply sorted_incl, firstn_incl).
  assert (Hdisj' : forall l, In l countries ->
                             ~ In l (region_grps ++ income_grps)).
  { intros l Hl. apply Hdisj.
    apply (Permutation_in l (Permutation_sym (sorted_perm _))). exact Hl. }
  destruct (setitem_means_ok df countries Hwf) as [df' [Hs [_ [Hc _]]]].
  set (labels := ([Country_Avg_line] ++ countries)
                 ++ region_grps ++ income_grps).
  assert (Hsub : incl (columns df) (columns df')).
  { rewrite Hc. destruct (contains Country_Avg_line (columns df)).
    - apply incl_refl.
    - apply incl_appl, incl_refl. }
  assert (Hcal : In Country_Avg_line (columns df')).
  { rewrite Hc. destruct (contains Country_Avg_line (columns df)) eqn:E.
    - now apply contains_In.
    - apply in_or_app. right. now left. }
  assert (Hnd' : NoDup (columns df')).
  { rewrite Hc. destruct (contains Country_Avg_line (columns df)) eqn:E.
    - exact Hnd.
    - apply contains_not_In in E. apply NoDup_app.
      + exact Hnd.
      + repeat constructor. intros H. exact H.
      + intros a Ha [<- | H]; [contradiction | exact H]. }
  assert (Hlab : incl labels (columns df')).
  { unfold labels. intros l Hl. apply in_app_or in Hl.
    destruct Hl as [Hl | Hl].
    - destruct Hl as [<- | Hl]; [exact Hcal | apply Hsub, Hincl, Hl].
    - apply Hsub, Hgroups, Hl. }
  exists countries,
         [("Countries", [Country_Avg_line] ++ countries);
          ("Income Groups", income_grps); ("Regions", region_grps)],
         (take_cols (flat_map (positions (columns df')) labels) df').
  assert (Hcols : columns
                    (take_cols (flat_map (positions (columns df')) labels) df')
                  = labels).
  { unfold take_cols. cbn [columns]. now apply take_labels. }
  split; [reflexivity|].
  split.
  { unfold chart_inputs. rewrite Hpre. cbn [bind].
    unfold country_columns. rewrite Hi. cbn [bind].
    fold countries. rewrite add_country_avg_eq by assumption.
    rewrite Hs. cbn [bind]. fold labels.
    rewrite getitem_cols_eq by exact Hlab. reflexivity. }
  split; [reflexivity|].
  split; [exact Hcols|].
  split.
  { intros col Hcol. rewrite Hcols in Hcol. rewrite categories_of_three.
    unfold labels in Hcol. apply in_app_or in Hcol.
    destruct Hcol as [Hcol | Hcol].
    - assert (Hin := Hcol). apply contains_In in Hin. rewrite Hin.
      assert (Hout : ~ In col (region_grps ++ income_grps)).
      { destruct Hcol as [<- | Hcol].
        - intros H. simpl in H. intuition discriminate.
        - now apply Hdisj'. }
      assert (H1 : contains col income_grps = false).
      { apply contains_not_In. intros H. apply Hout, in_or_app. now right. }
      assert (H2 : contains col region_grps = false).
      { apply contains_not_In. intros H. apply Hout, in_or_app. now left. }
      rewrite H1, H2. now exists "Countries".
    - assert (Hout : contains col ([Country_Avg_line] ++ countries) = false).
      { apply contains_not_In. intros [<- | H].
        - simpl in Hcol. intuition discriminate.
        - now apply (Hdisj' col). }
      rewrite Hout. apply in_app_or in Hcol.
      destruct Hcol as [Hcol | Hcol].
      + destruct (region_not_income col Hcol) as [H1 _].
        apply contains_In in Hcol. rewrite H1, Hcol. now exists "Regions".
      + destruct (income_not_region col Hcol) as [H1 _].
        apply contains_In in Hcol. rewrite H1, Hcol.
        now exists "Income Groups". }
  split.
  { rewrite categories_of_three.
    assert (Hin : contains Country_Avg_line
                    ([Country_Avg_line] ++ countries) = true)
      by (apply contains_In; now left).
    rewrite Hin. reflexivity. }
  intros l _ Hl. now rewrite Hcols.
Qed.

Lemma distinct_NoDup (l : list string) : Spec.distinct l = true -> NoDup l.
Proof.
  induction l as [|x l IH]; simpl; intros H.
  - constructor.
  - apply andb_prop in H. destruct H as [H1 H2]. constructor.
    + apply contains_not_In. now apply negb_true_iff.
    + now apply IH.
Qed.

Lemma forallb_incl (key cols : list string) :
  forallb (fun l => contains l cols) key = true -> incl key cols.
Proof.
  intros H l Hl. rewrite forallb_forall in H. apply contains_In.
  now apply H.
Qed.

Lemma final_table_columns_witness :
  let df := Spec.reshape remove_YR sample_raw in
  preprocess_df sample_raw = Ok df /\
  wf df /\
  NoDup (columns df) /\
  In "World" (columns df) /\
  incl (region_grps ++ income_grps) (columns df) /\
  (forall l, In l (Spec.labels_before "World" (columns df)) ->
             ~ In l (region_grps ++ income_grps)) /\
  exists countries fo final,
    countries = sorted (Spec.labels_before "World" (columns df)) /\
    chart_inputs sample_raw = Ok (fo, final) /\
    fo = [("Countries", [Country_Avg_line] ++ countries);
          ("Income Groups", income_grps);
          ("Regions", region_grps)] /\
    columns final
    = ([Country_Avg_line] ++ countries) ++ region_grps ++ income_grps /\
    (forall col, In col (columns final) ->
                 exists k, Spec.categories_of fo col = [k]) /\
    Spec.categories_of fo Country_Avg_line = ["Countries"] /\
    (forall l, In l (columns df) ->
               ~ In l (([Country_Avg_line] ++ countries)
                       ++ region_grps ++ income_grps) ->
               ~ In l (columns final)).
Proof.
  intros df.
  assert (H1 : preprocess_df sample_raw = Ok df) by reflexivity.
  assert (H2 : wf df) by (apply wfb_wf; reflexivity).
  assert (H3 : NoDup (columns df)) by (apply distinct_NoDup; reflexivity).
  assert (H4 : In "World" (columns df)) by (apply contains_In; reflexivity).
  assert (H5 : incl (region_grps ++ income_grps) (columns df))
    by (apply forallb_incl; reflexivity).
  assert (H6 : forall l, In l (Spec.labels_before "World" (columns df)) ->
                         ~ In l (region_grps ++ income_grps)).
  { intros l Hl. apply contains_not_In.
    apply contains_In in Hl. revert Hl.
    change (Spec.labels_before "World" (columns df))
      with ["Zimbabwe"; "Aruba"; "Brazil"].
    intros Hl. apply contains_In in Hl. simpl in Hl.
    repeat (destruct Hl as [<- | Hl]; [reflexivity|]). contradiction. }
  split; [exact H1|]. split; [exact H2|]. split; [exact H3|].
  split; [exact H4|]. split; [exact H5|]. split; [exact H6|].
  exact (final_table_columns sample_raw df H1 H2 H3 H4 H5 H6).
Defined.

(** C10, as stated, fails when a group label stands before "World": in
    the run on [sample_region_first] the column "North America" comes
    twice in the table handed to [create_chart], once among the countries
    and once among the regions, and it is in the option lists of two
    categories. *)
Lemma final_table_region_twice :
  wf sample_region_first /\
  exists fo final,
    chart_inputs sample_region_first = Ok (fo, final) /\
    nth_error (columns final) 1 = Some "North America" /\
    nth_error (columns final) 6 = Some "North America" /\
    Spec.categories_of fo "North America" = ["Countries"; "Regions"].
Proof.
  split; [apply wfb_wf; reflexivity|].
  eexists. eexists. split; [vm_compute; reflexivity|].
  repeat split; reflexivity.
Qed.

(* ================================================================= *)
(** ** Further properties of [create_chart] and of the run of [main] *)

(** X1.  In a run of [create_chart] that returns, the figure has the row
    labels of the table on its x axis and one trace per column, named
    after it and collapsed in the legend; the column labels are distinct
    and some row label is not a column label (otherwise [px.line] would
    have raised); every button of the dropdown restyles the attribute
    "visible" with a vector that has exactly one entry per trace. *)
Theorem figure_vectors_match_traces :
  forall (fo : dict (list string)) (df : DataFrame) (tr tr' : list event),
  create_chart fo df tr = (Ok tt, tr') ->
  exists fig,
    tr' = tr ++ [EvShow fig; EvWriteHtml "visual.html" fig] /\
    fig_x fig = index df /\
    map fst (fig_traces fig) = columns df /\
    Forall (fun t => snd t = VLegendOnly) (fig_traces fig) /\
    NoDup (map fst (fig_traces fig)) /\
    (exists l, In l (fig_x fig) /\ ~ In l (map fst (fig_traces fig))) /\
    Forall (fun b => method b = "restyle" /\
                     fst (args b) = "visible" /\
                     List.length (snd (args b))
                     = List.length (fig_traces fig))
           (fig_buttons fig).
Proof.
  intros fo df tr tr' Hrun. exists (Spec.chart_figure fo df).
  apply create_chart_Ok in Hrun. destruct Hrun as [Htr [Hnd Hx]].
  split; [exact Htr|]. simpl.
  assert (Hnames : map fst (map (fun c : string => (c, VLegendOnly))
                                (columns df)) = columns df)
    by (rewrite map_map; apply map_id).
  split; [reflexivity|].
  split; [exact Hnames|].
  split.
  { apply Forall_forall. intros t Ht. apply in_map_iff in Ht.
    now destruct Ht as [c [<- _]]. }
  rewrite Hnames. split; [exact Hnd|]. split; [exact Hx|].
  constructor.
  - simpl. now rewrite repeat_length, length_map.
  - apply Forall_forall. intros b Hb. apply in_map_iff in Hb.
    destruct Hb as [k [<- _]]. simpl. now rewrite !length_map.
Qed.

Lemma figure_vectors_match_traces_witness :
  create_chart sample_chart_options sample_chart []
  = (Ok tt, sample_chart_trace) /\
  exists fig,
    sample_chart_trace
    = [] ++ [EvShow fig; EvWriteHtml "visual.html" fig] /\
    fig_x fig = index sample_chart /\
    map fst (fig_traces fig) = columns sample_chart /\
    Forall (fun t => snd t = VLegendOnly) (fig_traces fig) /\
    NoDup (map fst (fig_traces fig)) /\
    (exists l, In l (fig_x fig) /\ ~ In l (map fst (fig_traces fig))) /\
    Forall (fun b => method b = "restyle" /\
                     fst (args b) = "visible" /\
                     List.length (snd (args b))
                     = List.length (fig_traces fig))
           (fig_buttons fig).
Proof.
  split; [exact sample_chart_runs|].
  exact (figure_vectors_match_traces
           sample_chart_options sample_chart [] sample_chart_trace
           sample_chart_runs).
Defined.

(** [create_chart] does not get past [px.line] on a table without rows,
    on a table whose row labels are all column labels, or on a table
    with a repeated column label: nothing is shown or written. *)
Lemma create_chart_raises (fo : dict (list string)) (df : DataFrame)
      (tr : list event) :
  incl (index df) (columns df) \/ ~ NoDup (columns df) ->
  exists e, create_chart fo df tr = (Raise e, tr).
Proof.
  intros H. unfold create_chart, io_bind, io_lift.
  rewrite build_figure_eq. unfold px_line.
  destruct (forallb (fun l => contains l (columns df)) (index df)) eqn:Ex;
    [now eexists|].
  destruct (is_unique (columns df)) eqn:Eu; [|now eexists].
  exfalso. destruct H as [H | H].
  - apply forallb_false_exists in Ex. destruct Ex as [l [Hl Hc]].
    apply contains_not_In in Hc. apply Hc, H, Hl.
  - apply H. now apply is_unique_NoDup.
Qed.

(* ================================================================= *)
(** ** Further properties of [preprocess_df] *)

Lemma reshape_columns_length (f : string -> string) (df : DataFrame) :
  wf df ->
  List.length (columns (Spec.reshape f df))
  = List.length (Spec.kept_rows df).
Proof.
  intros Hwf.
  pose proof (wf_drop_null_rows _ (wf_drop_null_columns df Hwf)) as [Hl _].
  change (columns (Spec.reshape f df))
    with (index (Spec.drop_null_rows (Spec.drop_null_columns df))).
  rewrite <- Hl, values_after_drops by exact Hwf. apply length_map.
Qed.

Lemma wf_reshape (f : string -> string) (df : DataFrame) :
  wf df -> wf (Spec.reshape f df).
Proof.
  intros Hwf. destruct (reshape_rows f df Hwf) as [Hi Hv].
  unfold wf. rewrite Hi, Hv, !length_map. split; [reflexivity|].
  apply Forall_forall. intros r Hr. apply in_map_iff in Hr.
  destruct Hr as [j [<- _]].
  rewrite reshape_columns_length by exact Hwf.
  unfold column. now rewrite !length_map.
Qed.

(** X3.  On a rectangular table [preprocess_df] returns a rectangular
    table with one row per column of the input that is not entirely null
    and one column per row of the input that is not entirely null (so no
    more rows than the input had columns, no more columns than it had
    rows); its row axis is named "Year" and its column axis has no
    name. *)
Theorem preprocess_df_shape (df : DataFrame) :
  wf df ->
  exists out,
    preprocess_df df = Ok out /\
    wf out /\
    List.length (index out) = List.length (Spec.kept_columns df) /\
    List.length (columns out) = List.length (Spec.kept_rows df) /\
    List.length (index out) <= List.length (columns df) /\
    List.length (columns out) <= List.length (index df) /\
    index_name out = Some "Year" /\
    columns_name out = None.
Proof.
  intros Hwf. exists (Spec.reshape remove_YR df).
  destruct (reshape_rows remove_YR df Hwf) as [Hi _].
  pose proof (reshape_columns_length remove_YR df Hwf) as Hc.
  split; [now apply preprocess_df_eq|].
  split; [now apply wf_reshape|].
  split; [rewrite Hi; apply length_map|].
  split; [exact Hc|].
  split.
  - rewrite Hi, length_map. unfold Spec.kept_columns.
    etransitivity; [apply filter_length_le|]. now rewrite length_seq.
  - split; [|split; reflexivity].
    rewrite Hc. unfold Spec.kept_rows.
    etransitivity; [apply filter_length_le|].
    destruct Hwf as [Hl _]. now rewrite Hl.
Qed.

Lemma preprocess_df_shape_witness :
  wf sample_raw /\
  exists out,
    preprocess_df sample_raw = Ok out /\
    wf out /\
    List.length (index out) = List.length (Spec.kept_columns sample_raw) /\
    List.length (columns out) = List.length (Spec.kept_rows sample_raw) /\
    List.length (index out) <= List.length (columns sample_raw) /\
    List.length (columns out) <= List.length (index sample_raw) /\
    index_name out = Some "Year" /\
    columns_name out = None.
Proof.
  split; [exact wf_sample_raw|].
  exact (preprocess_df_shape sample_raw wf_sample_raw).
Defined.

Lemma all_null_false (l : list cell) :
  Spec.all_null l = false <-> exists c, In c l /\ notna c = true.
Proof.
  rewrite <- existsb_exists, any_notna_not_all_null.
  destruct (Spec.all_null l); simpl; split; congruence.
Qed.

Lemma notna_round (c : cell) :
  notna (option_map (np_round 1) c) = notna c.
Proof. now destruct c. Qed.

Lemma notna_nth_In (j : nat) (r : list cell) :
  notna (nth j r None) = true ->
  j < List.length r /\ In (nth j r None) r.
Proof.
  intros H. destruct (Nat.lt_ge_cases j (List.length r)) as [Hlt | Hge].
  - split; [exact Hlt | now apply nth_In].
  - rewrite nth_overflow in H by exact Hge. discriminate.
Qed.

Lemma kept_rows_In (df : DataFrame) (r : list cell) :
  In r (Spec.kept_rows df) <-> In r (values df) /\ Spec.all_null r = false.
Proof.
  unfold Spec.kept_rows. rewrite filter_In, negb_true_iff. reflexivity.
Qed.

(** X4.  The table that [preprocess_df] returns has no row and no column
    that is entirely null: dropping the null rows after the null columns
    leaves no null column behind. *)
Theorem preprocess_df_leaves_no_null_line (df : DataFrame) :
  wf df ->
  exists out,
    preprocess_df df = Ok out /\
    Forall (fun r => Spec.all_null r = false) (values out) /\
    (forall i, i < List.length (columns out) ->
               Spec.all_null (column i (values out)) = false).
Proof.
  intros Hwf. exists (Spec.reshape remove_YR df).
  destruct (reshape_rows remove_YR df Hwf) as [_ Hv].
  split; [now apply preprocess_df_eq|]. split.
  - rewrite Hv. apply Forall_forall. intros row Hrow.
    apply in_map_iff in Hrow. destruct Hrow as [j [<- Hj]].
    apply kept_columns_spec in Hj. destruct Hj as [_ Hj].
    apply all_null_false in Hj. destruct Hj as [c [Hc Hn]].
    unfold column in Hc. apply in_map_iff in Hc.
    destruct Hc as [r [<- Hr]].
    destruct (notna_nth_In j r Hn) as [_ Hin].
    apply all_null_false. exists (option_map (np_round 1) (nth j r None)).
    split; [|now rewrite notna_round].
    apply in_map. unfold column.
    apply (in_map (fun r => nth j r None)).
    apply kept_rows_In. split; [exact Hr|].
    apply all_null_false. now exists (nth j r None).
  - intros i Hi. rewrite reshape_columns_length in Hi by exact Hwf.
    set (ri := nth i (Spec.kept_rows df) []).
    assert (Hri : In ri (Spec.kept_rows df)) by now apply nth_In.
    apply kept_rows_In in Hri. destruct Hri as [Hri Hnn].
    apply all_null_false in Hnn. destruct Hnn as [c [Hc Hn]].
    apply (In_nth _ _ None) in Hc. destruct Hc as [j0 [Hj0 Hc]].
    assert (Hk : In j0 (Spec.kept_columns df)).
    { apply kept_columns_spec. split.
      - now rewrite <- (wf_rows df ri Hwf Hri).
      - apply all_null_false. exists c. split; [|exact Hn].
        unfold column. apply in_map_iff. now exists ri. }
    apply all_null_false. exists (option_map (np_round 1) c).
    split; [|now rewrite notna_round].
    rewrite Hv. unfold column at 1. rewrite map_map.
    apply in_map_iff. exists j0. split; [|exact Hk].
    unfold column. rewrite map_map.
    rewrite (nth_indep _ None
               (option_map (np_round 1) (nth j0 [] None)))
      by (rewrite length_map; exact Hi).
    rewrite (map_nth (fun r => option_map (np_round 1) (nth j0 r None))
                     (Spec.kept_rows df) [] i).
    rewrite <- Hc. reflexivity.
Qed.

Lemma preprocess_df_leaves_no_null_line_witness :
  wf sample_raw /\
  exists out,
    preprocess_df sample_raw = Ok out /\
    Forall (fun r => Spec.all_null r = false) (values out) /\
    (forall i, i < List.length (columns out) ->
               Spec.all_null (column i (values out)) = false).
Proof.
  split; [exact wf_sample_raw|].
  exact (preprocess_df_leaves_no_null_line sample_raw wf_sample_raw).
Defined.

Lemma filter_all {A : Type} (p : A -> bool) (l : list A) :
  (forall x, In x l -> p x = true) -> filter p l = l.
Proof.
  induction l as [|x l IH]; intros H; simpl; [reflexivity|].
  rewrite (H x) by now left. f_equal. apply IH.
  intros y Hy. apply H. now right.
Qed.

Lemma map_fst_combine_eq {A B : Type} (xs : list A) :
  forall ys : list B,
    List.length xs = List.length ys -> map fst (combine xs ys) = xs.
Proof.
  induction xs as [|x xs IH]; intros [|y ys] Hlen; simpl in *;
    try reflexivity; try discriminate.
  f_equal. apply IH. lia.
Qed.

Lemma DataFrame_eta (df : DataFrame) :
  df = {| index := index df;
          index_name := index_name df;
          columns := columns df;
          columns_name := columns_name df;
          values := values df |}.
Proof. now destruct df. Qed.

Lemma kept_columns_all (df : DataFrame) :
  (forall j, j < List.length (columns df) ->
             Spec.all_null (column j (values df)) = false) ->
  Spec.kept_columns df = seq 0 (List.length (columns df)).
Proof.
  intros H. unfold Spec.kept_columns. apply filter_all.
  intros j Hj. apply in_seq in Hj. rewrite H by lia. reflexivity.
Qed.

Lemma kept_rows_all (df : DataFrame) :
  Forall (fun r => Spec.all_null r = false) (values df) ->
  Spec.kept_rows df = values df.
Proof.
  intros H. unfold Spec.kept_rows. apply filter_all.
  intros r Hr. rewrite Forall_forall in H. now rewrite (H r Hr).
Qed.

(** X5.  On a rectangular table in which every column and every row has
    a cell that is not null, [preprocess_df] drops nothing: the result is
    the transposed table, its row labels the column labels without "YR",
    its column labels the row labels of the input, its cells the cells of
    the input rounded to one decimal place. *)
Theorem preprocess_df_clean_table (df : DataFrame) :
  wf df ->
  (forall j, j < List.length (columns df) ->
             Spec.all_null (column j (values df)) = false) ->
  Forall (fun r => Spec.all_null r = false) (values df) ->
  preprocess_df df =
  Ok {| index := map remove_YR (columns df);
        index_name := Some "Year";
        columns := index df;
        columns_name := None;
        values :=
          map (fun j => map (option_map (np_round 1))
                            (column j (values df)))
              (seq 0 (List.length (columns df))) |}.
Proof.
  intros Hwf Hcols Hrows. rewrite preprocess_df_eq by exact Hwf. f_equal.
  destruct (reshape_rows remove_YR df Hwf) as [Hi Hv].
  rewrite (kept_columns_all df Hcols) in Hi, Hv.
  rewrite (kept_rows_all df Hrows) in Hv.
  rewrite (DataFrame_eta (Spec.reshape remove_YR df)), Hi, Hv.
  change (index_name (Spec.reshape remove_YR df)) with (Some "Year").
  change (columns_name (Spec.reshape remove_YR df)) with (@None string).
  assert (Ei : map (fun j => remove_YR (nth j (columns df) EmptyString))
                   (seq 0 (List.length (columns df)))
               = map remove_YR (columns df))
    by apply (map_nth_seq remove_YR EmptyString (columns df)).
  assert (Ec : columns (Spec.reshape remove_YR df) = index df).
  { change (columns (Spec.reshape remove_YR df))
      with (index (Spec.drop_null_rows (Spec.drop_null_columns df))).
    pose proof (wf_drop_null_columns df Hwf) as [Hl _].
    unfold Spec.drop_null_rows. cbn [index].
    rewrite filter_all.
    - apply map_fst_combine_eq. now symmetry.
    - intros [l r'] Hin. apply in_combine_r in Hin. cbn [snd].
      unfold Spec.drop_null_columns, take_cols in Hin. cbn [values] in Hin.
      apply in_map_iff in Hin. destruct Hin as [r [<- Hr]].
      rewrite all_null_on_kept_columns by assumption.
      rewrite Forall_forall in Hrows. now rewrite (Hrows r Hr). }
  now rewrite Ei, Ec.
Qed.

Lemma wf_sample_clean : wf sample_clean.
Proof. apply wfb_wf. reflexivity. Qed.

Lemma preprocess_df_clean_table_witness :
  wf sample_clean /\
  (forall j, j < List.length (columns sample_clean) ->
             Spec.all_null (column j (values sample_clean)) = false) /\
  Forall (fun r => Spec.all_null r = false) (values sample_clean) /\
  preprocess_df sample_clean =
  Ok {| index := map remove_YR (columns sample_clean);
        index_name := Some "Year";
        columns := index sample_clean;
        columns_name := None;
        values :=
          map (fun j => map (option_map (np_round 1))
                            (column j (values sample_clean)))
              (seq 0 (List.length (columns sample_clean))) |}.
Proof.
  assert (Hc : forall j, j < List.length (columns sample_clean) ->
                 Spec.all_null (column j (values sample_clean)) = false).
  { intros j Hj. simpl in Hj.
    destruct j as [|[|j]]; [reflexivity | reflexivity | lia]. }
  assert (Hr : Forall (fun r => Spec.all_null r = false)
                      (values sample_clean))
    by (repeat constructor).
  split; [exact wf_sample_clean|]. split; [exact Hc|].
  split; [exact Hr|].
  exact (preprocess_df_clean_table sample_clean wf_sample_clean Hc Hr).
Defined.

(** [rint] is no further than one half from its argument. *)
Lemma rint_close (x : Q) :
  (2 * (rint x * Zpos (Qden x) - Qnum x) <= Zpos (Qden x))%Z /\
  (2 * (Qnum x - rint x * Zpos (Qden x)) <= Zpos (Qden x))%Z.
Proof.
  unfold rint. destruct x as [n d]. cbn [Qnum Qden].
  pose proof (Z.div_mod n (Zpos d) ltac:(discriminate)) as Hdm.
  pose proof (Z.mod_pos_bound n (Zpos d) ltac:(reflexivity)) as Hb.
  set (q := (n / Zpos d)%Z) in *. set (r := (n mod Zpos d)%Z) in *.
  destruct (Z.compare_spec (2 * r) (Zpos d)) as [He | Hl | Hg].
  - destruct (Z.even q); nia.
  - nia.
  - nia.
Qed.

Lemma np_round_1_close (x : Q) :
  (x - (1 # 20) <= np_round 1 x)%Q /\ (np_round 1 x <= x + (1 # 20))%Q.
Proof.
  rewrite np_round_1_eq.
  destruct (rint_close (x * inject_Z 10)) as [H1 H2].
  destruct x as [n d]. revert H1 H2.
  unfold Qle, Qminus, Qplus, Qopp, Qmult, inject_Z. cbn [Qnum Qden].
  set (k := rint (Qmake (n * 10) (d * 1))).
  rewrite !Pos2Z.inj_mul. intros H1 H2. split; nia.
Qed.

Lemma remove_YR_year_label (l : string) :
  Spec.year_label l -> String "Y" (String "R" (remove_YR l)) = l.
Proof.
  intros [r [-> Hr]]. cbn [remove_YR Ascii.eqb Bool.eqb andb].
  now rewrite remove_YR_absent.
Qed.

Lemma NoDup_map_on {A B : Type} (f : A -> B) (l : list A) :
  NoDup l ->
  (forall x y, In x l -> In y l -> f x = f y -> x = y) ->
  NoDup (map f l).
Proof.
  induction 1 as [|x l Hx Hnd IH]; intros Hinj; simpl; constructor.
  - intros Hin. apply in_map_iff in Hin. destruct Hin as [y [Hy Hin]].
    apply Hx. rewrite (Hinj x y); auto using in_eq, in_cons.
  - apply IH. intros a b Ha Hb. apply Hinj; now right.
Qed.

(** X7.  When the column labels of a rectangular input are distinct and
    each is "YR" followed by a text without "YR", the row labels of the
    table that [preprocess_df] returns are distinct, and each of them is
    a column label of the input without its prefix. *)
Theorem preprocess_df_year_labels (df : DataFrame) :
  wf df ->
  NoDup (columns df) ->
  Forall Spec.year_label (columns df) ->
  exists out,
    preprocess_df df = Ok out /\
    NoDup (index out) /\
    Forall (fun y => In (String "Y" (String "R" y)) (columns df))
           (index out).
Proof.
  intros Hwf Hnd Hyr. exists (Spec.reshape remove_YR df).
  destruct (reshape_rows remove_YR df Hwf) as [Hi _].
  split; [now apply preprocess_df_eq|].
  rewrite Forall_forall in Hyr.
  assert (Hlab : forall j, In j (Spec.kept_columns df) ->
                           In (nth j (columns df) EmptyString) (columns df)).
  { intros j Hj. apply kept_columns_spec in Hj. apply nth_In. tauto. }
  rewrite Hi. split.
  - apply NoDup_map_on.
    + unfold Spec.kept_columns. apply NoDup_filter, seq_NoDup.
    + intros j1 j2 H1 H2 E.
      apply (proj1 (NoDup_nth (columns df) EmptyString) Hnd).
      * apply kept_columns_spec in H1. tauto.
      * apply kept_columns_spec in H2. tauto.
      * rewrite <- (remove_YR_year_label _ (Hyr _ (Hlab j1 H1))).
        rewrite <- (remove_YR_year_label _ (Hyr _ (Hlab j2 H2))).
        now rewrite E.
  - apply Forall_forall. intros y Hy. apply in_map_iff in Hy.
    destruct Hy as [j [<- Hj]].
    rewrite (remove_YR_year_label _ (Hyr _ (Hlab j Hj))).
    now apply Hlab.
Qed.

Lemma preprocess_df_year_labels_witness :
  wf sample_raw /\
  NoDup (columns sample_raw) /\
  Forall Spec.year_label (columns sample_raw) /\
  exists out,
    preprocess_df sample_raw = Ok out /\
    NoDup (index out) /\
    Forall (fun y => In (String "Y" (String "R" y)) (columns sample_raw))
           (index out).
Proof.
  assert (Hnd : NoDup (columns sample_raw))
    by (apply distinct_NoDup; reflexivity).
  assert (Hyr : Forall Spec.year_label (columns sample_raw)).
  { repeat constructor; eexists; split; reflexivity. }
  split; [exact wf_sample_raw|]. split; [exact Hnd|].
  split; [exact Hyr|].
  exact (preprocess_df_year_labels sample_raw wf_sample_raw Hnd Hyr).
Defined.

(* ================================================================= *)
(** ** Further properties of [main]: the table handed to the chart *)

Lemma index_from_Ok (x : string) (l : list string) :
  forall k j,
    index_from x l k = Ok j -> k <= j /\ nth_error l (j - k) = Some x.
Proof.
  induction l as [|y l IH]; intros k j H; simpl in H; [discriminate|].
  destruct (String.eqb y x) eqn:E.
  - apply String.eqb_eq in E. injection H as <-. subst y.
    rewrite Nat.sub_diag. split; [lia | reflexivity].
  - destruct (IH _ _ H) as [H1 H2]. split; [lia|].
    replace (j - k) with (S (j - S k)) by lia. exact H2.
Qed.

Lemma list_index_Ok (cols : list string) (x : string) (j : nat) :
  list_index cols x = Ok j -> nth_error cols j = Some x.
Proof.
  intros H. apply index_from_Ok in H. destruct H as [_ H].
  now rewrite Nat.sub_0_r in H.
Qed.

Lemma list_index_Raise (cols : list string) (x : string) (e : exn) :
  list_index cols x = Raise e -> ~ In x cols.
Proof.
  intros H Hin. destruct (list_index_In cols x Hin) as [j [Hj _]].
  congruence.
Qed.

Lemma nth_map_combine {A : Type} (g : string * cell -> A) (d : A)
      (cols : list string) :
  forall (r : list cell) (j : nat) (y : string),
    List.length r = List.length cols ->
    nth_error cols j = Some y ->
    nth j (map g (combine cols r)) d = g (y, nth j r None).
Proof.
  induction cols as [|x cols IH]; intros [|c r] [|j] y Hlen Hn;
    simpl in *; try discriminate.
  - now injection Hn as ->.
  - apply IH; [lia | exact Hn].
Qed.

Lemma index_from_app (x l : string) (cols : list string) :
  forall k,
    index_from x (cols ++ [l]) k =
    match index_from x cols k with
    | Ok j => Ok j
    | Raise _ =>
        if String.eqb l x then Ok (k + List.length cols)
        else Raise ValueError
    end.
Proof.
  induction cols as [|y cols IH]; intros k; simpl.
  - now rewrite Nat.add_0_r.
  - destruct (String.eqb y x); [reflexivity|].
    rewrite IH. now rewrite Nat.add_succ_r.
Qed.

(** The row that [setitem] writes for the label [l] and the value [v]. *)
Lemma written_row_cells (cols : list string) (r : list cell) (l : string)
      (v : cell) (x : string) :
  List.length r = List.length cols ->
  Spec.cell_at
    (if contains l cols then cols else cols ++ [l])
    (if contains l cols
     then map (fun lc => if String.eqb (fst lc) l then v else snd lc)
              (combine cols r)
     else r ++ [v])
    x
  = if String.eqb x l then v else Spec.cell_at cols r x.
Proof.
  intros Hlen. destruct (contains l cols) eqn:E; cbv iota.
  - apply contains_In in E. unfold Spec.cell_at.
    destruct (list_index cols x) as [j|e] eqn:Hx.
    + apply list_index_Ok in Hx.
      exact (nth_map_combine
               (fun lc : string * cell =>
                  if String.eqb (fst lc) l then v else snd lc)
               None cols r j x Hlen Hx).
    + apply list_index_Raise in Hx.
      destruct (String.eqb x l) eqn:Exl; [|reflexivity].
      apply String.eqb_eq in Exl. subst x. contradiction.
  - apply contains_not_In in E.
    destruct (String.eqb x l) eqn:Exl.
    + apply String.eqb_eq in Exl. subst x.
      now apply setitem_cell.
    + unfold Spec.cell_at, list_index. rewrite index_from_app.
      fold (list_index cols x).
      destruct (list_index cols x) as [j|e] eqn:Hx.
      * apply list_index_Ok in Hx.
        apply app_nth1. rewrite Hlen. apply nth_error_Some. congruence.
      * rewrite String.eqb_sym, Exl. reflexivity.
Qed.

Lemma setitem_columns (df : DataFrame) (l : string) (vals : list cell) :
  List.length vals = List.length (index df) ->
  exists df',
    setitem df l vals = Ok df' /\
    index df' = index df /\
    columns df' = (if contains l (columns df)
                   then columns df else columns df ++ [l]) /\
    values df'
    = map (fun rv =>
             if contains l (columns df)
             then map (fun lc => if String.eqb (fst lc) l
                                 then snd rv else snd lc)
                      (combine (columns df) (fst rv))
             else fst rv ++ [snd rv])
          (combine (values df) vals).
Proof.
  intros Hlen. unfold setitem. rewrite Hlen, Nat.eqb_refl. cbn [negb].
  destruct (contains l (columns df)); eexists;
    (split; [reflexivity|]); cbn [index columns values];
    repeat split; reflexivity.
Qed.

Lemma country_means_length (df : DataFrame) (countries : list string) :
  wf df ->
  List.length (Spec.country_means df countries) = List.length (index df).
Proof.
  intros [Hl _]. unfold Spec.country_means. now rewrite length_map.
Qed.

(** Lines 147-163 on a reshaped table with distinct labels that holds
    "World" and the eleven groups: the options, and the final table row by
    row. *)
Lemma chart_inputs_rows (raw df : DataFrame) :
  preprocess_df raw = Ok df ->
  wf df ->
  NoDup (columns df) ->
  In "World" (columns df) ->
  incl (region_grps ++ income_grps) (columns df) ->
  exists final,
    chart_inputs raw
    = Ok (Spec.chart_options
            (sorted (Spec.labels_before "World" (columns df))), final) /\
    index final = index df /\
    columns final
    = Spec.chart_labels (sorted (Spec.labels_before "World" (columns df))) /\
    values final
    = map (fun r =>
             map (fun l =>
                    if String.eqb l Country_Avg_line
                    then nanmean
                           (map (Spec.cell_at (columns df) r)
                                (sorted (Spec.labels_before "World"
                                           (columns df))))
                    else Spec.cell_at (columns df) r l)
                 (Spec.chart_labels
                    (sorted (Spec.labels_before "World" (columns df)))))
          (values df).
Proof.
  intros Hpre Hwf Hnd Hw Hgroups.
  destruct (list_index_In _ _ Hw) as [w [Hi _]].
  rewrite (labels_before_eq _ _ _ Hi).
  set (countries := sorted (firstn w (columns df))).
  assert (Hincl : incl countries (columns df))
    by (apply sorted_incl, firstn_incl).
  destruct (setitem_columns df Country_Avg_line
              (Spec.country_means df countries)
              (country_means_length df countries Hwf))
    as [df' [Hs [Hix [Hc Hv]]]].
  assert (Hsub : incl (columns df) (columns df')).
  { rewrite Hc. destruct (contains Country_Avg_line (columns df)).
    - apply incl_refl.
    - apply incl_appl, incl_refl. }
  assert (Hcal : In Country_Avg_line (columns df')).
  { rewrite Hc. destruct (contains Country_Avg_line (columns df)) eqn:E.
    - now apply contains_In.
    - apply in_or_app. right. now left. }
  assert (Hnd' : NoDup (columns df')).
  { rewrite Hc. destruct (contains Country_Avg_line (columns df)) eqn:E.
    - exact Hnd.
    - apply contains_not_In in E. apply NoDup_app.
      + exact Hnd.
      + repeat constructor. intros H. exact H.
      + intros a Ha [<- | H]; [contradiction | exact H]. }
  assert (Hlab : incl (Spec.chart_labels countries) (columns df')).
  { unfold Spec.chart_labels. intros l Hl. apply in_app_or in Hl.
    destruct Hl as [Hl | Hl].
    - destruct Hl as [<- | Hl]; [exact Hcal | apply Hsub, Hincl, Hl].
    - apply Hsub, Hgroups, Hl. }
  exists (take_cols (flat_map (positions (columns df'))
                              (Spec.chart_labels countries)) df').
  split.
  { unfold chart_inputs. rewrite Hpre. cbn [bind].
    unfold country_columns. rewrite Hi. cbn [bind].
    fold countries. rewrite add_country_avg_eq by assumption.
    rewrite Hs. cbn [bind].
    change (([Country_Avg_line] ++ countries) ++ region_grps ++ income_grps)
      with (Spec.chart_labels countries).
    rewrite getitem_cols_eq by exact Hlab. reflexivity. }
  unfold take_cols. cbn [index columns values].
  split; [exact Hix|].
  split; [now apply take_labels|].
  rewrite Hv. unfold Spec.country_means.
  rewrite combine_map_r, !map_map. apply map_ext_in. intros r Hr.
  cbn [fst snd].
  rewrite take_by_labels by assumption.
  apply map_ext. intros l. rewrite Hc.
  apply written_row_cells. now apply wf_rows.
Qed.

(** X8.  On a reshaped table with distinct labels that holds "World" and
    the eleven groups, the selection of line 160 only reorders: the table
    handed to [create_chart] keeps the row labels, and every one of its
    rows holds, label by label of the chart, the cell of the reshaped row
    in the column of that label, except under "Country_Avg_line", where
    it holds the mean of the row's cells in the country columns. *)
Theorem final_table_rows (raw df : DataFrame) :
  preprocess_df raw = Ok df ->
  wf df ->
  NoDup (columns df) ->
  In "World" (columns df) ->
  incl (region_grps ++ income_grps) (columns df) ->
  exists countries fo final,
    country_columns df = Ok countries /\
    chart_inputs raw = Ok (fo, final) /\
    index final = index df /\
    Forall2
      (fun r r' =>
         Forall2
           (fun l c =>
              (l = Country_Avg_line ->
               c = nanmean (map (Spec.cell_at (columns df) r) countries)) /\
              (l <> Country_Avg_line ->
               c = Spec.cell_at (columns df) r l))
           (columns final) r')
      (values df) (values final).
Proof.
  intros Hpre Hwf Hnd Hw Hgroups.
  destruct (chart_inputs_rows raw df Hpre Hwf Hnd Hw Hgroups)
    as [final [Hci [Hix [Hc Hv]]]].
  destruct (list_index_In _ _ Hw) as [w [Hi _]].
  exists (sorted (Spec.labels_before "World" (columns df))),
         (Spec.chart_options
            (sorted (Spec.labels_before "World" (columns df)))),
         final.
  split.
  { unfold country_columns. rewrite Hi. cbn [bind].
    now rewrite (labels_before_eq _ _ _ Hi). }
  split; [exact Hci|]. split; [exact Hix|].
  rewrite Hv, Hc. apply Forall2_map_same. intros r _.
  apply Forall2_map_same. intros l _. split.
  - intros ->. now rewrite String.eqb_refl.
  - intros Hne. apply String.eqb_neq in Hne. now rewrite Hne.
Qed.

Lemma sample_raw_reshaped :
  let df := Spec.reshape remove_YR sample_raw in
  preprocess_df sample_raw = Ok df /\
  wf df /\
  NoDup (columns df) /\
  In "World" (columns df) /\
  incl (region_grps ++ income_grps) (columns df).
Proof.
  intros df.
  split; [reflexivity|].
  split; [apply wfb_wf; reflexivity|].
  split; [apply distinct_NoDup; reflexivity|].
  split; [apply contains_In; reflexivity|].
  apply forallb_incl. reflexivity.
Qed.

Lemma final_table_rows_witness :
  let df := Spec.reshape remove_YR sample_raw in
  preprocess_df sample_raw = Ok df /\
  wf df /\
  NoDup (columns df) /\
  In "World" (columns df) /\
  incl (region_grps ++ income_grps) (columns df) /\
  exists countries fo final,
    country_columns df = Ok countries /\
    chart_inputs sample_raw = Ok (fo, final) /\
    index final = index df /\
    Forall2
      (fun r r' =>
         Forall2
           (fun l c =>
              (l = Country_Avg_line ->
               c = nanmean (map (Spec.cell_at (columns df) r) countries)) /\
              (l <> Country_Avg_line ->
               c = Spec.cell_at (columns df) r l))
           (columns final) r')
      (values df) (values final).
Proof.
  intros df.
  destruct sample_raw_reshaped as (H1 & H2 & H3 & H4 & H5).
  split; [exact H1|]. split; [exact H2|]. split; [exact H3|].
  split; [exact H4|]. split; [exact H5|].
  exact (final_table_rows sample_raw df H1 H2 H3 H4 H5).
Defined.

(** X9.  On a reshaped table with distinct labels that holds "World" and
    the eleven groups, a run of [main] that returns has shown one figure
    and written it to [visual.html].  The figure has the years on its x
    axis, one trace per chart label ("Country_Avg_line", the sorted
    countries, the regions, the income groups), these labels distinct,
    and the four options "All", "Countries", "Income Groups", "Regions",
    in this order. *)
Theorem main_writes_chart (raw df : DataFrame) (tr tr' : list event) :
  preprocess_df raw = Ok df ->
  wf df ->
  NoDup (columns df) ->
  In "World" (columns df) ->
  incl (region_grps ++ income_grps) (columns df) ->
  main raw tr = (Ok tt, tr') ->
  exists fig,
    tr' = tr ++ [EvShow fig; EvWriteHtml "visual.html" fig] /\
    fig_x fig = index df /\
    map fst (fig_traces fig)
    = Spec.chart_labels (sorted (Spec.labels_before "World" (columns df))) /\
    NoDup (map fst (fig_traces fig)) /\
    map label (fig_buttons fig)
    = ["All"; "Countries"; "Income Groups"; "Regions"].
Proof.
  intros Hpre Hwf Hnd Hw Hgroups Hrun.
  destruct (chart_inputs_rows raw df Hpre Hwf Hnd Hw Hgroups)
    as [final [Hci [Hix [Hc _]]]].
  rewrite main_stages, Hci in Hrun.
  destruct (inspect_dataframe raw); [|discriminate].
  cbn [fst snd] in Hrun. apply create_chart_Ok in Hrun.
  destruct Hrun as [Htr [Hnd' _]].
  exists (Spec.chart_figure
            (Spec.chart_options
               (sorted (Spec.labels_before "World" (columns df))))
            final).
  split; [exact Htr|].
  cbn [Spec.chart_figure fig_x fig_traces fig_buttons].
  assert (Hnames : map fst (map (fun c : string => (c, VLegendOnly))
                                (columns final)) = columns final)
    by (rewrite map_map; apply map_id).
  rewrite Hnames.
  split; [exact Hix|]. split; [exact Hc|]. split; [exact Hnd'|].
  reflexivity.
Qed.

Lemma sample_main_runs : main sample_raw [] = (Ok tt, sample_main_trace).
Proof. vm_compute. reflexivity. Qed.

Lemma main_writes_chart_witness :
  let df := Spec.reshape remove_YR sample_raw in
  preprocess_df sample_raw = Ok df /\
  wf df /\
  NoDup (columns df) /\
  In "World" (columns df) /\
  incl (region_grps ++ income_grps) (columns df) /\
  main sample_raw [] = (Ok tt, sample_main_trace) /\
  exists fig,
    sample_main_trace
    = [] ++ [EvShow fig; EvWriteHtml "visual.html" fig] /\
    fig_x fig = index df /\
    map fst (fig_traces fig)
    = Spec.chart_labels (sorted (Spec.labels_before "World" (columns df))) /\
    NoDup (map fst (fig_traces fig)) /\
    map label (fig_buttons fig)
    = ["All"; "Countries"; "Income Groups"; "Regions"].
Proof.
  intros df.
  destruct sample_raw_reshaped as (H1 & H2 & H3 & H4 & H5).
  split; [exact H1|]. split; [exact H2|]. split; [exact H3|].
  split; [exact H4|]. split; [exact H5|].
  split; [exact sample_main_runs|].
  exact (main_writes_chart sample_raw df [] sample_main_trace
           H1 H2 H3 H4 H5 sample_main_runs).
Defined.

Lemma compress_all_false {A B : Type} (l : list A) :
  forall xs : list B, compress (map (fun _ => false) l) xs = [].
Proof.
  induction l as [|a l IH]; intros [|x xs]; simpl; auto.
Qed.

(** A table without columns is reshaped into a table without columns. *)
Lemma preprocess_df_no_columns (raw df : DataFrame) :
  columns raw = [] -> preprocess_df raw = Ok df -> columns df = [].
Proof.
  destruct raw as [idx iname cols cname vals]. cbn [columns].
  intros ->. unfold preprocess_df, dropna. simpl.
  intros H. injection H as <-. cbn [columns].
  rewrite !map_map. simpl. apply compress_all_false.
Qed.

Lemma inspect_dataframe_Ok (raw df : DataFrame) :
  preprocess_df raw = Ok df -> columns df <> [] ->
  inspect_dataframe raw = Ok tt.
Proof.
  intros Hpre Hne. unfold inspect_dataframe.
  destruct (columns raw) eqn:E; [|reflexivity].
  exfalso. apply Hne. now apply (preprocess_df_no_columns raw df).
Qed.

Lemma group_not_aggregate (l : string) :
  In l (region_grps ++ income_grps) -> l <> Country_Avg_line.
Proof.
  intros H. apply in_app_or in H. destruct H as [H | H].
  - now apply region_not_income.
  - now apply income_not_region.
Qed.

(** X10.  When the reshaped table holds "World" but lacks one of the
    eleven group labels, [main] ends with the [KeyError] of the selection
    of line 160, after the average was computed and before any figure is
    built: nothing is shown and no file is written. *)
Theorem main_raises_without_group (raw df : DataFrame) (tr : list event) :
  preprocess_df raw = Ok df ->
  wf df ->
  In "World" (columns df) ->
  ~ incl (region_grps ++ income_grps) (columns df) ->
  main raw tr = (Raise KeyError, tr).
Proof.
  intros Hpre Hwf Hw Hmiss.
  destruct (list_index_In _ _ Hw) as [w [Hi _]].
  set (countries := sorted (firstn w (columns df))).
  assert (Hincl : incl countries (columns df))
    by (apply sorted_incl, firstn_incl).
  assert (Hlen : List.length
                   (mean_axis1
                      (take_cols (flat_map (positions (columns df)) countries)
                                 df))
                 = List.length (index df)).
  { destruct Hwf as [Hl _]. unfold mean_axis1, take_cols. cbn [values].
    now rewrite !length_map. }
  destruct (setitem_columns df Country_Avg_line _ Hlen)
    as [df' [Hs [_ [Hc _]]]].
  rewrite main_stages.
  rewrite (inspect_dataframe_Ok raw df Hpre)
    by (intros E; rewrite E in Hw; contradiction).
  unfold chart_inputs.
  rewrite Hpre. cbn [bind]. unfold country_columns. rewrite Hi.
  cbn [bind]. fold countries. unfold add_country_avg.
  rewrite getitem_cols_eq by exact Hincl. cbn [bind]. rewrite Hs.
  cbn [bind]. unfold getitem_cols.
  rewrite get_indexer_strict_missing; [reflexivity|].
  intros Hall. apply Hmiss. intros l Hl.
  assert (Hl' : In l (columns df')).
  { apply Hall. apply in_or_app. now right. }
  rewrite Hc in Hl'.
  destruct (contains Country_Avg_line (columns df)); [exact Hl'|].
  apply in_app_or in Hl'. destruct Hl' as [Hl' | [Hl' | []]];
    [exact Hl'|].
  exfalso. now apply (group_not_aggregate l Hl).
Qed.

Lemma main_raises_without_group_witness :
  let df := Spec.reshape remove_YR sample_no_groups in
  preprocess_df sample_no_groups = Ok df /\
  wf df /\
  In "World" (columns df) /\
  ~ incl (region_grps ++ income_grps) (columns df) /\
  main sample_no_groups [] = (Raise KeyError, []).
Proof.
  intros df.
  assert (H1 : preprocess_df sample_no_groups = Ok df) by reflexivity.
  assert (H2 : wf df) by (apply wfb_wf; reflexivity).
  assert (H3 : In "World" (columns df))
    by (apply contains_In; reflexivity).
  assert (H4 : ~ incl (region_grps ++ income_grps) (columns df)).
  { intros H. assert (Hin : In "Low income" (columns df)).
    { apply H. apply contains_In. reflexivity. }
    apply contains_In in Hin. discriminate Hin. }
  split; [exact H1|]. split; [exact H2|]. split; [exact H3|].
  split; [exact H4|].
  exact (main_raises_without_group sample_no_groups df [] H1 H2 H3 H4).
Defined.

Lemma visibility_of_eq (k : string) (opts : list string) (col : string) :
  Spec.visibility_of k opts col =
  if contains col opts then
    if String.eqb col Country_Avg_line then VTrue
    else if String.eqb k "Countries" then VLegendOnly else VTrue
  else VFalse.
Proof.
  unfold Spec.visibility_of.
  destruct (in_dec string_dec col opts) as [Hin | Hout].
  - apply contains_In in Hin. rewrite Hin.
    destruct (string_dec col Country_Avg_line) as [-> | Hne].
    + now rewrite String.eqb_refl.
    + apply String.eqb_neq in Hne. rewrite Hne.
      destruct (string_dec k "Countries") as [-> | Hk].
      * now rewrite String.eqb_refl.
      * apply String.eqb_neq in Hk. now rewrite Hk.
  - apply contains_not_In in Hout. now rewrite Hout.
Qed.

Lemma map_const {A B : Type} (f : A -> B) (c : B) (l : list A) :
  (forall x, In x l -> f x = c) -> map f l = repeat c (List.length l).
Proof.
  induction l as [|x l IH]; intros H; simpl; [reflexivity|].
  rewrite (H x) by now left. f_equal. apply IH.
  intros y Hy. apply H. now right.
Qed.

(** The vector of a category over the chart labels, segment by segment,
    when the three option lists do not overlap. *)
Lemma chart_vector (k : string) (opts countries : list string)
      (va vc vr vi : visible) :
  Spec.visibility_of k opts Country_Avg_line = va ->
  (forall l, In l countries -> Spec.visibility_of k opts l = vc) ->
  (forall l, In l region_grps -> Spec.visibility_of k opts l = vr) ->
  (forall l, In l income_grps -> Spec.visibility_of k opts l = vi) ->
  map (Spec.visibility_of k opts) (Spec.chart_labels countries)
  = [va] ++ repeat vc (List.length countries)
         ++ repeat vr 7 ++ repeat vi 4.
Proof.
  intros Ha Hc Hr Hi. unfold Spec.chart_labels.
  rewrite !map_app, <- app_assoc. cbn [map]. rewrite Ha.
  rewrite (map_const _ vc countries Hc).
  rewrite (map_const _ vr region_grps Hr).
  rewrite (map_const _ vi income_grps Hi).
  reflexivity.
Qed.

(** X11.  When in addition neither a group label nor "Country_Avg_line"
    stands before "World", in a run of [main] that returns the four
    vectors of the dropdown are, over the aggregate column, the [n]
    countries, the seven regions and the four income groups: all
    collapsed in the legend for "All";
    shown, collapsed, hidden, hidden for "Countries"; hidden, hidden,
    hidden, shown for "Income Groups"; hidden, hidden, shown, hidden for
    "Regions". *)
Theorem main_dropdown_vectors (raw df : DataFrame) (tr tr' : list event) :
  preprocess_df raw = Ok df ->
  wf df ->
  NoDup (columns df) ->
  In "World" (columns df) ->
  incl (region_grps ++ income_grps) (columns df) ->
  (forall l, In l (Spec.labels_before "World" (columns df)) ->
             ~ In l (region_grps ++ income_grps) /\
             l <> Country_Avg_line) ->
  main raw tr = (Ok tt, tr') ->
  exists fig,
    tr' = tr ++ [EvShow fig; EvWriteHtml "visual.html" fig] /\
    let n := List.length (Spec.labels_before "World" (columns df)) in
    map (fun b => (label b, snd (args b))) (fig_buttons fig)
    = [("All", repeat VLegendOnly (1 + n + 7 + 4));
       ("Countries",
        [VTrue] ++ repeat VLegendOnly n
                ++ repeat VFalse 7 ++ repeat VFalse 4);
       ("Income Groups",
        [VFalse] ++ repeat VFalse n
                 ++ repeat VFalse 7 ++ repeat VTrue 4);
       ("Regions",
        [VFalse] ++ repeat VFalse n
                 ++ repeat VTrue 7 ++ repeat VFalse 4)].
Proof.
  intros Hpre Hwf Hnd Hw Hgroups Hdisj Hrun.
  destruct (chart_inputs_rows raw df Hpre Hwf Hnd Hw Hgroups)
    as [final [Hci [_ [Hc _]]]].
  set (before := Spec.labels_before "World" (columns df)) in *.
  set (countries := sorted before) in *.
  assert (Hperm : Permutation before countries) by apply sorted_perm.
  assert (Hn : List.length countries = List.length before)
    by (symmetry; now apply Permutation_length).
  assert (Hcountry : forall l, In l countries ->
            contains l ([Country_Avg_line] ++ countries) = true /\
            contains l region_grps = false /\
            contains l income_grps = false /\
            String.eqb l Country_Avg_line = false).
  { intros l Hl.
    assert (Hb : In l before)
      by (apply (Permutation_in l (Permutation_sym Hperm)); exact Hl).
    destruct (Hdisj l Hb) as [Hg Hne].
    split; [apply contains_In; now right|].
    split; [apply contains_not_In; intros H; apply Hg, in_or_app; now left|].
    split; [apply contains_not_In; intros H; apply Hg, in_or_app; now right|].
    now apply String.eqb_neq. }
  assert (Hgroup : forall l, In l (region_grps ++ income_grps) ->
            contains l ([Country_Avg_line] ++ countries) = false /\
            String.eqb l Country_Avg_line = false).
  { intros l Hl. pose proof (group_not_aggregate l Hl) as Hne.
    split; [|now apply String.eqb_neq].
    apply contains_not_In. intros [H | H]; [now apply Hne|].
    apply (Permutation_in l (Permutation_sym Hperm)) in H.
    destruct (Hdisj l H) as [Hg _]. now apply Hg. }
  exists (Spec.chart_figure (Spec.chart_options countries) final).
  split.
  { rewrite main_stages, Hci in Hrun.
    destruct (inspect_dataframe raw); [|discriminate].
    cbn [fst snd] in Hrun. now apply create_chart_Ok in Hrun. }
  assert (HA : List.length (Spec.chart_labels countries)
               = 1 + List.length before + 7 + 4).
  { unfold Spec.chart_labels. rewrite !length_app, Hn.
    change (List.length region_grps) with 7.
    change (List.length income_grps) with 4.
    cbn [List.length]. lia. }
  assert (HC : map (Spec.visibility_of "Countries"
                      ([Country_Avg_line] ++ countries))
                   (Spec.chart_labels countries)
               = [VTrue] ++ repeat VLegendOnly (List.length before)
                         ++ repeat VFalse 7 ++ repeat VFalse 4).
  { rewrite <- Hn. apply chart_vector.
    - rewrite visibility_of_eq. reflexivity.
    - intros l Hl. rewrite visibility_of_eq.
      destruct (Hcountry l Hl) as (H1 & _ & _ & H4). now rewrite H1, H4.
    - intros l Hl. rewrite visibility_of_eq.
      destruct (Hgroup l) as [H1 _]; [apply in_or_app; now left|].
      now rewrite H1.
    - intros l Hl. rewrite visibility_of_eq.
      destruct (Hgroup l) as [H1 _]; [apply in_or_app; now right|].
      now rewrite H1. }
  assert (HI : map (Spec.visibility_of "Income Groups" income_grps)
                   (Spec.chart_labels countries)
               = [VFalse] ++ repeat VFalse (List.length before)
                          ++ repeat VFalse 7 ++ repeat VTrue 4).
  { rewrite <- Hn. apply chart_vector.
    - rewrite visibility_of_eq. reflexivity.
    - intros l Hl. rewrite visibility_of_eq.
      destruct (Hcountry l Hl) as (_ & _ & H3 & _). now rewrite H3.
    - intros l Hl. rewrite visibility_of_eq.
      destruct (region_not_income l Hl) as [H1 _]. now rewrite H1.
    - intros l Hl. rewrite visibility_of_eq.
      destruct (Hgroup l) as [_ H2]; [apply in_or_app; now right|].
      apply contains_In in Hl. now rewrite Hl, H2. }
  assert (HR : map (Spec.visibility_of "Regions" region_grps)
                   (Spec.chart_labels countries)
               = [VFalse] ++ repeat VFalse (List.length before)
                          ++ repeat VTrue 7 ++ repeat VFalse 4).
  { rewrite <- Hn. apply chart_vector.
    - rewrite visibility_of_eq. reflexivity.
    - intros l Hl. rewrite visibility_of_eq.
      destruct (Hcountry l Hl) as (_ & H2 & _ & _). now rewrite H2.
    - intros l Hl. rewrite visibility_of_eq.
      destruct (Hgroup l) as [_ H2]; [apply in_or_app; now left|].
      apply contains_In in Hl. now rewrite Hl, H2.
    - intros l Hl. rewrite visibility_of_eq.
      destruct (income_not_region l Hl) as [H1 _]. now rewrite H1. }
  cbv zeta. unfold Spec.chart_figure, Spec.all_button.
  cbn [fig_buttons map label args snd Spec.chart_options keys fst].
  rewrite Hc. unfold Spec.category_button. cbn [label args snd].
  change (Spec.options_of (Spec.chart_options countries) "Countries")
    with ([Country_Avg_line] ++ countries).
  change (Spec.options_of (Spec.chart_options countries) "Income Groups")
    with income_grps.
  change (Spec.options_of (Spec.chart_options countries) "Regions")
    with region_grps.
  now rewrite HA, HC, HI, HR.
Qed.

Lemma main_dropdown_vectors_witness :
  let df := Spec.reshape remove_YR sample_raw in
  preprocess_df sample_raw = Ok df /\
  wf df /\
  NoDup (columns df) /\
  In "World" (columns df) /\
  incl (region_grps ++ income_grps) (columns df) /\
  (forall l, In l (Spec.labels_before "World" (columns df)) ->
             ~ In l (region_grps ++ income_grps) /\
             l <> Country_Avg_line) /\
  main sample_raw [] = (Ok tt, sample_main_trace) /\
  exists fig,
    sample_main_trace
    = [] ++ [EvShow fig; EvWriteHtml "visual.html" fig] /\
    let n := List.length (Spec.labels_before "World" (columns df)) in
    map (fun b => (label b, snd (args b))) (fig_buttons fig)
    = [("All", repeat VLegendOnly (1 + n + 7 + 4));
       ("Countries",
        [VTrue] ++ repeat VLegendOnly n
                ++ repeat VFalse 7 ++ repeat VFalse 4);
       ("Income Groups",
        [VFalse] ++ repeat VFalse n
                 ++ repeat VFalse 7 ++ repeat VTrue 4);
       ("Regions",
        [VFalse] ++ repeat VFalse n
                 ++ repeat VTrue 7 ++ repeat VFalse 4)].
Proof.
  intros df.
  destruct sample_raw_reshaped as (H1 & H2 & H3 & H4 & H5).
  assert (H6 : forall l, In l (Spec.labels_before "World" (columns df)) ->
                         ~ In l (region_grps ++ income_grps) /\
                         l <> Country_Avg_line).
  { intros l Hl.
    change (Spec.labels_before "World" (columns df))
      with ["Zimbabwe"; "Aruba"; "Brazil"] in Hl.
    simpl in Hl.
    repeat (destruct Hl as [<- | Hl];
            [split; [apply contains_not_In; reflexivity | discriminate]|]).
    contradiction. }
  split; [exact H1|]. split; [exact H2|]. split; [exact H3|].
  split; [exact H4|]. split; [exact H5|]. split; [exact H6|].
  split; [exact sample_main_runs|].
  exact (main_dropdown_vectors sample_raw df [] sample_main_trace
           H1 H2 H3 H4 H5 H6 sample_main_runs).
Defined.

(* ================================================================= *)
(** ** Percentages stay percentages *)

Lemma percent_round (c : cell) :
  Spec.percent c -> Spec.percent (option_map (np_round 1) c).
Proof.
  destruct c as [x|]; simpl; [|trivial]. intros [H0 H100].
  destruct (np_round_1_close x) as [Hlo Hhi].
  rewrite np_round_1_eq in *.
  set (k := rint (x * inject_Z 10)) in *.
  assert (Hlo' : (- (1 # 20) <= Qmake k 10)%Q) by lra.
  assert (Hhi' : (Qmake k 10 <= 100 + (1 # 20))%Q) by lra.
  unfold Qle in Hlo', Hhi' |- *. simpl in Hlo', Hhi' |- *. lia.
Qed.

Lemma percent_dropna_cells (l : list cell) :
  Forall Spec.percent l ->
  Forall (fun q => (0 <= q)%Q /\ (q <= 100)%Q) (dropna_cells l).
Proof.
  induction 1 as [|c l Hc Hl IH]; simpl; [constructor|].
  destruct c as [q|]; [constructor; assumption | assumption].
Qed.

Lemma sum_percent (qs : list Q) :
  Forall (fun q => (0 <= q)%Q /\ (q <= 100)%Q) qs ->
  forall acc : Q,
    (acc <= fold_left Qplus qs acc)%Q /\
    (fold_left Qplus qs acc
     <= acc + 100 * inject_Z (Z.of_nat (List.length qs)))%Q.
Proof.
  induction 1 as [|q qs [Hq0 Hq1] Hqs IH]; intros acc.
  - cbn [fold_left List.length Z.of_nat]. change (inject_Z 0) with 0%Q.
    split; lra.
  - cbn [fold_left List.length]. destruct (IH (acc + q)%Q) as [H1 H2].
    rewrite Nat2Z.inj_succ. unfold Z.succ. rewrite inject_Z_plus.
    change (inject_Z 1) with 1%Q. split; lra.
Qed.

(** The mean of percentages is a percentage. *)
Lemma percent_nanmean (l : list cell) :
  Forall Spec.percent l -> Spec.percent (nanmean l).
Proof.
  intros H. apply percent_dropna_cells in H. unfold nanmean.
  destruct (dropna_cells l) as [|q qs]; [exact I|].
  inversion H as [|? ? [Hq0 Hq1] Hqs]; subst.
  destruct (sum_percent qs Hqs q) as [H1 H2].
  cbn [Spec.percent]. rewrite Qred_correct.
  cbn [List.length]. rewrite Nat2Z.inj_succ. unfold Z.succ.
  rewrite inject_Z_plus. change (inject_Z 1) with 1%Q.
  set (m := inject_Z (Z.of_nat (List.length qs))) in *.
  assert (Hm : (0 <= m)%Q).
  { unfold m. change 0%Q with (inject_Z 0). rewrite <- Zle_Qle. lia. }
  assert (Hpos : (0 < m + 1)%Q) by lra.
  split.
  - apply Qle_shift_div_l; [exact Hpos | lra].
  - apply Qle_shift_div_r; [exact Hpos | lra].
Qed.

Lemma percent_nth (r : list cell) (j : nat) :
  Forall Spec.percent r -> Spec.percent (nth j r None).
Proof.
  intros H. destruct (Nat.lt_ge_cases j (List.length r)) as [Hlt | Hge].
  - rewrite Forall_forall in H. apply H. now apply nth_In.
  - now rewrite nth_overflow.
Qed.

Lemma percent_cell_at (cols : list string) (r : list cell) (l : string) :
  Forall Spec.percent r -> Spec.percent (Spec.cell_at cols r l).
Proof.
  intros H. unfold Spec.cell_at.
  destruct (list_index cols l); [now apply percent_nth | exact I].
Qed.

Lemma reshape_percent (f : string -> string) (df : DataFrame) :
  wf df ->
  Spec.all_cells Spec.percent df ->
  Spec.all_cells Spec.percent (Spec.reshape f df).
Proof.
  intros Hwf Hp. unfold Spec.all_cells in *.
  destruct (reshape_rows f df Hwf) as [_ Hv]. rewrite Hv.
  apply Forall_forall. intros row Hrow. apply in_map_iff in Hrow.
  destruct Hrow as [j [<- _]].
  apply Forall_forall. intros c Hc. apply in_map_iff in Hc.
  destruct Hc as [c0 [<- Hc0]]. apply percent_round.
  unfold column in Hc0. apply in_map_iff in Hc0.
  destruct Hc0 as [r [<- Hr]]. apply percent_nth.
  apply kept_rows_In in Hr. destruct Hr as [Hr _].
  rewrite Forall_forall in Hp. now apply Hp.
Qed.

(** X12.  When every cell of a rectangular input that is not null lies
    between 0 and 100, so does every cell of the table that
    [preprocess_df] returns. *)
Theorem preprocess_df_keeps_percentages (df : DataFrame) :
  wf df ->
  Spec.all_cells Spec.percent df ->
  exists out,
    preprocess_df df = Ok out /\ Spec.all_cells Spec.percent out.
Proof.
  intros Hwf Hp. exists (Spec.reshape remove_YR df).
  split; [now apply preprocess_df_eq | now apply reshape_percent].
Qed.

Lemma sample_raw_percent : Spec.all_cells Spec.percent sample_raw.
Proof.
  unfold Spec.all_cells. simpl.
  repeat constructor; unfold Qle; simpl; lia.
Qed.

Lemma preprocess_df_keeps_percentages_witness :
  wf sample_raw /\
  Spec.all_cells Spec.percent sample_raw /\
  exists out,
    preprocess_df sample_raw = Ok out /\ Spec.all_cells Spec.percent out.
Proof.
  split; [exact wf_sample_raw|]. split; [exact sample_raw_percent|].
  exact (preprocess_df_keeps_percentages sample_raw wf_sample_raw
           sample_raw_percent).
Defined.

(** X13.  When every cell of the fetched table that is not null lies
    between 0 and 100, and the reshaped table has distinct labels and
    holds "World" and the eleven groups, every cell of the table handed
    to [create_chart] lies between 0 and 100 or is null, the averages of
    the column "Country_Avg_line" included. *)
Theorem chart_table_keeps_percentages (raw df : DataFrame) :
  wf raw ->
  Spec.all_cells Spec.percent raw ->
  preprocess_df raw = Ok df ->
  NoDup (columns df) ->
  In "World" (columns df) ->
  incl (region_grps ++ income_grps) (columns df) ->
  exists fo final,
    chart_inputs raw = Ok (fo, final) /\
    In Country_Avg_line (columns final) /\
    Spec.all_cells Spec.percent final.
Proof.
  intros Hwf Hp Hpre Hnd Hw Hgroups.
  assert (Hdf : df = Spec.reshape remove_YR raw).
  { rewrite preprocess_df_eq in Hpre by exact Hwf. congruence. }
  assert (Hwf' : wf df) by (rewrite Hdf; now apply wf_reshape).
  assert (Hp' : Spec.all_cells Spec.percent df)
    by (rewrite Hdf; now apply reshape_percent).
  destruct (chart_inputs_rows raw df Hpre Hwf' Hnd Hw Hgroups)
    as [final [Hci [_ [Hc Hv]]]].
  eexists. exists final. split; [exact Hci|]. split.
  { rewrite Hc. now left. }
  unfold Spec.all_cells in *. rewrite Hv.
  apply Forall_forall. intros row Hrow. apply in_map_iff in Hrow.
  destruct Hrow as [r [<- Hr]].
  rewrite Forall_forall in Hp'. specialize (Hp' r Hr).
  apply Forall_forall. intros c Hc'. apply in_map_iff in Hc'.
  destruct Hc' as [l [<- _]].
  destruct (String.eqb l Country_Avg_line).
  - apply percent_nanmean. apply Forall_forall. intros c Hc'.
    apply in_map_iff in Hc'. destruct Hc' as [l' [<- _]].
    now apply percent_cell_at.
  - now apply percent_cell_at.
Qed.

Lemma chart_table_keeps_percentages_witness :
  let df := Spec.reshape remove_YR sample_raw in
  wf sample_raw /\
  Spec.all_cells Spec.percent sample_raw /\
  preprocess_df sample_raw = Ok df /\
  NoDup (columns df) /\
  In "World" (columns df) /\
  incl (region_grps ++ income_grps) (columns df) /\
  exists fo final,
    chart_inputs sample_raw = Ok (fo, final) /\
    In Country_Avg_line (columns final) /\
    Spec.all_cells Spec.percent final.
Proof.
  intros df.
  destruct sample_raw_reshaped as (H1 & _ & H3 & H4 & H5).
  split; [exact wf_sample_raw|]. split; [exact sample_raw_percent|].
  split; [exact H1|]. split; [exact H3|]. split; [exact H4|].
  split; [exact H5|].
  exact (chart_table_keeps_percentages sample_raw df wf_sample_raw
           sample_raw_percent H1 H3 H4 H5).
Defined.

(* ================================================================= *)
(** ** Rows without data *)

Lemma combine_map_snd {A B C : Type} (g : B -> C) (xs : list A) :
  forall ys : list B,
    combine xs (map g ys) = map (fun xy => (fst xy, g (snd xy))) (combine xs ys).
Proof.
  induction xs as [|x xs IH]; intros [|y ys]; simpl; try reflexivity.
  now rewrite IH.
Qed.

(** The column labels of the reshaped table: the labels of the rows of
    the input that are not entirely null. *)
Lemma reshape_columns (f : string -> string) (df : DataFrame) :
  wf df ->
  columns (Spec.reshape f df)
  = map fst (filter (fun lr => negb (Spec.all_null (snd lr)))
                    (combine (index df) (values df))).
Proof.
  intros Hwf.
  change (columns (Spec.reshape f df))
    with (index (Spec.drop_null_rows (Spec.drop_null_columns df))).
  unfold Spec.drop_null_rows, Spec.drop_null_columns, take_cols.
  cbn [index values].
  rewrite combine_map_snd, filter_map_comm, map_map. cbn [fst snd].
  rewrite (filter_ext_in _ (fun lr => negb (Spec.all_null (snd lr))));
    [reflexivity|].
  intros [l r] Hin. cbn [snd]. apply in_combine_r in Hin.
  now rewrite all_null_on_kept_columns.
Qed.

(** X14.  On a rectangular table [preprocess_df] removes exactly the rows
    that are entirely null: the column labels of its result are, in
    order, the labels of the rows of the input that have a cell that is
    not null. *)
Theorem preprocess_df_drops_null_rows (df : DataFrame) :
  wf df ->
  exists out,
    preprocess_df df = Ok out /\
    columns out
    = map fst (filter (fun lr => negb (Spec.all_null (snd lr)))
                      (combine (index df) (values df))).
Proof.
  intros Hwf. exists (Spec.reshape remove_YR df).
  split; [now apply preprocess_df_eq | now apply reshape_columns].
Qed.

Lemma preprocess_df_drops_null_rows_witness :
  wf sample_raw /\
  exists out,
    preprocess_df sample_raw = Ok out /\
    columns out
    = map fst (filter (fun lr => negb (Spec.all_null (snd lr)))
                      (combine (index sample_raw) (values sample_raw))).
Proof.
  split; [exact wf_sample_raw|].
  exact (preprocess_df_drops_null_rows sample_raw wf_sample_raw).
Defined.

(** X15.  When the fetched table has no row labelled "World", or only
    rows so labelled that are entirely null (the reshaper drops them),
    [main] ends with [ValueError] and neither shows nor writes
    anything. *)
Theorem main_raises_without_world_data (raw : DataFrame) (tr : list event) :
  wf raw ->
  (forall i, nth_error (index raw) i = Some "World" ->
             Spec.all_null (nth i (values raw) []) = true) ->
  main raw tr = (Raise ValueError, tr).
Proof.
  intros Hwf Hnull. apply main_ValueError.
  unfold chart_inputs.
  rewrite preprocess_df_eq by exact Hwf. cbn [bind].
  unfold country_columns, list_index.
  rewrite index_from_missing; [reflexivity|].
  rewrite reshape_columns by exact Hwf. intros Hin.
  apply in_map_iff in Hin. destruct Hin as [[l r] [Hl Hin]].
  cbn [fst] in Hl. subst l. apply filter_In in Hin.
  destruct Hin as [Hin Hnn]. cbn [snd] in Hnn.
  apply (In_nth _ _ (EmptyString, [])) in Hin.
  destruct Hin as [i [Hi Hnth]].
  rewrite combine_nth in Hnth by (destruct Hwf as [Hl _]; now symmetry).
  injection Hnth as Hlab Hrow.
  rewrite length_combine in Hi.
  assert (Hi' : i < List.length (index raw)) by lia.
  specialize (Hnull i).
  rewrite (nth_error_nth' _ EmptyString Hi'), Hlab in Hnull.
  rewrite <- Hrow, (Hnull eq_refl) in Hnn. discriminate.
Qed.

Lemma main_raises_without_world_data_witness :
  wf sample_world_null /\
  (forall i, nth_error (index sample_world_null) i = Some "World" ->
             Spec.all_null (nth i (values sample_world_null) []) = true) /\
  main sample_world_null [] = (Raise ValueError, []).
Proof.
  assert (Hwf : wf sample_world_null) by (apply wfb_wf; reflexivity).
  assert (Hn : forall i,
             nth_error (index sample_world_null) i = Some "World" ->
             Spec.all_null (nth i (values sample_world_null) []) = true).
  { intros i Hi. destruct i as [|[|i]]; simpl in Hi.
    - discriminate.
    - reflexivity.
    - destruct i; discriminate. }
  split; [exact Hwf|]. split; [exact Hn|].
  exact (main_raises_without_world_data sample_world_null [] Hwf Hn).
Defined.

Lemma nanmean_None (l : list cell) :
  nanmean l = None <-> Forall (fun c => c = None) l.
Proof.
  unfold nanmean.
  assert (G : dropna_cells l = [] <-> Forall (fun c => c = None) l).
  { induction l as [|[q|] l IH]; simpl.
    - split; [constructor | reflexivity].
    - split; [discriminate | intros H; inversion H; discriminate].
    - rewrite IH. split.
      + now constructor.
      + intros H. now inversion H. }
  rewrite <- G. destruct (dropna_cells l); split; congruence.
Qed.

(** X16.  In a reshaped table with distinct labels that holds "World",
    the cell of "Country_Avg_line" in a row is null exactly when the row
    is null in every country column: countries without data in a year are
    left out of that year's average, they do not make it null. *)
Theorem country_average_null (df : DataFrame) :
  wf df -> NoDup (columns df) -> In "World" (columns df) ->
  exists countries df',
    country_columns df = Ok countries /\
    add_country_avg df countries = Ok df' /\
    Forall2
      (fun r r' =>
         Spec.cell_at (columns df') r' Country_Avg_line = None <->
         Forall (fun l => Spec.cell_at (columns df) r l = None) countries)
      (values df) (values df').
Proof.
  intros Hwf Hnd Hw.
  destruct (list_index_In _ _ Hw) as [w [Hi _]].
  set (countries := sorted (firstn w (columns df))).
  assert (Hincl : incl countries (columns df))
    by (apply sorted_incl, firstn_incl).
  destruct (setitem_means_ok df countries Hwf) as [df' [Hs [_ [_ Hv]]]].
  exists countries, df'.
  split; [unfold country_columns; now rewrite Hi|].
  split; [now rewrite add_country_avg_eq|].
  eapply Forall2_impl; [|exact Hv].
  intros r r' H. cbv beta in H. rewrite H, nanmean_None.
  now rewrite Forall_map.
Qed.

Lemma country_average_null_witness :
  wf sample_A_B /\ NoDup (columns sample_A_B) /\
  In "World" (columns sample_A_B) /\
  exists countries df',
    country_columns sample_A_B = Ok countries /\
    add_country_avg sample_A_B countries = Ok df' /\
    Forall2
      (fun r r' =>
         Spec.cell_at (columns df') r' Country_Avg_line = None <->
         Forall (fun l => Spec.cell_at (columns sample_A_B) r l = None)
                countries)
      (values sample_A_B) (values df').
Proof.
  assert (Hw : In "World" (columns sample_A_B)).
  { simpl. right. right. now left. }
  split; [exact wf_sample_A_B|].
  split; [exact NoDup_sample_A_B|].
  split; [exact Hw|].
  exact (country_average_null sample_A_B wf_sample_A_B
           NoDup_sample_A_B Hw).
Defined.

(* ================================================================= *)
(** ** The average over the country columns *)

Lemma dropna_cells_numbers (l : list cell) : dropna_cells l = Spec.numbers l.
Proof.
  unfold Spec.numbers. induction l as [|[q|] l IH]; simpl;
    [reflexivity | now rewrite IH | exact IH].
Qed.

(** The mean of a single number is that number. *)
Lemma nanmean_single (l : list cell) (x : Q) :
  Spec.numbers l = [x] -> exists q, nanmean l = Some q /\ (q == x)%Q.
Proof.
  intros H. unfold nanmean. rewrite dropna_cells_numbers, H.
  eexists. split; [reflexivity|].
  rewrite Qred_correct. cbn [fold_left List.length Z.of_nat].
  change (inject_Z (Z.pos (Pos.of_succ_nat 0))) with 1%Q.
  field.
Qed.

(** C7, as amended.  In a reshaped table with pairwise distinct column
    labels, "World" among them: the country list is the sorted list of
    the labels that stand strictly before "World", and in every row the
    cell of the new column "Country_Avg_line" is the mean that pandas
    takes of the row's cells in exactly the columns of that list.  That
    mean is null exactly when all of these cells are null, it is the one
    number among them when there is only one, and it is a percentage
    when they are percentages. *)
Theorem country_average_column (df : DataFrame) :
  wf df -> NoDup (columns df) -> In "World" (columns df) ->
  exists w countries df',
    list_index (columns df) "World" = Ok w /\
    nth_error (columns df) w = Some "World" /\
    country_columns df = Ok countries /\
    Permutation (firstn w (columns df)) countries /\
    Sorted (fun a b => String.leb a b = true) countries /\
    add_country_avg df countries = Ok df' /\
    In Country_Avg_line (columns df') /\
    Forall2
      (fun r r' =>
         let cells := map (Spec.cell_at (columns df) r) countries in
         let c := Spec.cell_at (columns df') r' Country_Avg_line in
         c = nanmean cells /\
         (c = None <-> Forall (fun x => x = None) cells) /\
         (forall x, Spec.numbers cells = [x] ->
                    exists q, c = Some q /\ (q == x)%Q) /\
         (Forall Spec.percent cells -> Spec.percent c))
      (values df) (values df').
Proof.
  intros Hwf Hnd Hw.
  destruct (list_index_In _ _ Hw) as [w [Hi Hn]].
  set (countries := sorted (firstn w (columns df))).
  assert (Hincl : incl countries (columns df))
    by (apply sorted_incl, firstn_incl).
  destruct (setitem_means_ok df countries Hwf) as [df' [Hs [_ [Hc Hv]]]].
  exists w, countries, df'.
  split; [exact Hi|]. split; [exact Hn|].
  split; [unfold country_columns; now rewrite Hi|].
  split; [apply sorted_perm|].
  split; [apply StringSort.Sorted_sort|].
  split; [now rewrite add_country_avg_eq|].
  split.
  { rewrite Hc. destruct (contains Country_Avg_line (columns df)) eqn:E.
    - now apply contains_In.
    - apply in_or_app. right. now left. }
  eapply Forall2_impl; [|exact Hv].
  intros r r' H. cbv beta zeta in *. rewrite H.
  split; [reflexivity|].
  split; [apply nanmean_None|].
  split; [apply nanmean_single | apply percent_nanmean].
Qed.

Lemma country_average_column_witness :
  wf sample_A_B /\ NoDup (columns sample_A_B) /\
  In "World" (columns sample_A_B) /\
  exists w countries df',
    list_index (columns sample_A_B) "World" = Ok w /\
    nth_error (columns sample_A_B) w = Some "World" /\
    country_columns sample_A_B = Ok countries /\
    Permutation (firstn w (columns sample_A_B)) countries /\
    Sorted (fun a b => String.leb a b = true) countries /\
    add_country_avg sample_A_B countries = Ok df' /\
    In Country_Avg_line (columns df') /\
    Forall2
      (fun r r' =>
         let cells := map (Spec.cell_at (columns sample_A_B) r) countries in
         let c := Spec.cell_at (columns df') r' Country_Avg_line in
         c = nanmean cells /\
         (c = None <-> Forall (fun x => x = None) cells) /\
         (forall x, Spec.numbers cells = [x] ->
                    exists q, c = Some q /\ (q == x)%Q) /\
         (Forall Spec.percent cells -> Spec.percent c))
      (values sample_A_B) (values df').
Proof.
  assert (Hw : In "World" (columns sample_A_B)).
  { simpl. right. right. now left. }
  split; [exact wf_sample_A_B|].
  split; [exact NoDup_sample_A_B|].
  split; [exact Hw|].
  exact (country_average_column sample_A_B wf_sample_A_B
           NoDup_sample_A_B Hw).
Defined.

(** C7, as stated, fails when the label of a country column comes again
    after "World": on [sample_repeated] the country list is ["Aruba"],
    selecting the columns of that label takes the column after "World"
    as well, and the average is 20, the mean of 10 and 30, where the mean
    over the one column before "World" is 10. *)
Lemma country_average_repeated_label :
  wf sample_repeated /\
  list_index (columns sample_repeated) "World" = Ok 1 /\
  country_columns sample_repeated = Ok ["Aruba"] /\
  map (fun r => nanmean (firstn 1 r)) (values sample_repeated)
  = [Some 10%Q] /\
  exists df',
    add_country_avg sample_repeated ["Aruba"] = Ok df' /\
    columns df' = ["Aruba"; "World"; "Aruba"; Country_Avg_line] /\
    values df' = [[Some 10%Q; Some 50%Q; Some 30%Q; Some 20%Q]].
Proof.
  split; [apply wfb_wf; reflexivity|].
  split; [reflexivity|]. split; [reflexivity|]. split; [reflexivity|].
  eexists. split; [reflexivity|]. split; reflexivity.
Qed.
